(** * The AI reply engine of xianyu-auto-reply ([ai_reply_engine.py])

    A shallow embedding of the class [AIReplyEngine] and the properties of
    its reply pipeline: response normalisation, protocol selection, intent
    classification, the bargaining cap, persistence of conversation turns and
    the per-account client cache. *)

From Stdlib Require Import ZArith QArith Lia Lqa List Ascii String DecimalString.
From stdpp Require Import base option list gmap.

Local Open Scope Z_scope.

(** ** Python strings

    A Python [str] is a sequence of Unicode code points; a code point is an
    integer.  Literals of the source are written as UTF-8 text and decoded. *)

Abbreviation str := (list Z).

Fixpoint utf8_decode (bs : list Z) : str :=
  match bs with
  | [] => []
  | b0 :: t0 =>
    if b0 <? 0x80 then b0 :: utf8_decode t0
    else match t0 with
    | [] => []
    | b1 :: t1 =>
      if b0 <? 0xE0 then
        Z.lor (Z.shiftl (Z.land b0 0x1F) 6) (Z.land b1 0x3F) :: utf8_decode t1
      else match t1 with
      | [] => []
      | b2 :: t2 =>
        if b0 <? 0xF0 then
          Z.lor (Z.shiftl (Z.land b0 0x0F) 12)
            (Z.lor (Z.shiftl (Z.land b1 0x3F) 6) (Z.land b2 0x3F))
          :: utf8_decode t2
        else match t2 with
        | [] => []
        | b3 :: t3 =>
          Z.lor (Z.shiftl (Z.land b0 0x07) 18)
            (Z.lor (Z.shiftl (Z.land b1 0x3F) 12)
               (Z.lor (Z.shiftl (Z.land b2 0x3F) 6) (Z.land b3 0x3F)))
          :: utf8_decode t3
        end
      end
    end
  end.

Definition py (s : string) : str :=
  utf8_decode (List.map (fun a => Z.of_N (N_of_ascii a)) (list_ascii_of_string s)).

(** [s.startswith(p)] *)
Fixpoint startswith (p s : str) : bool :=
  match p, s with
  | [], _ => true
  | _ :: _, [] => false
  | a :: p', b :: s' => (a =? b) && startswith p' s'
  end.

(** [p in s] on strings: [p] occurs in [s] as a contiguous run. *)
Fixpoint contains (p s : str) : bool :=
  startswith p s ||
  match s with
  | [] => false
  | _ :: t => contains p t
  end.

(** The text that follows the first occurrence of [p] in [s], if any. *)
Fixpoint find_after (p s : str) : option str :=
  if startswith p s then Some (drop (length p) s)
  else match s with
       | [] => None
       | _ :: t => find_after p t
       end.

(** [str.isspace] of one code point (CPython's [_PyUnicode_IsWhitespace]). *)
Definition isspace (c : Z) : bool :=
  ((0x09 <=? c) && (c <=? 0x0D)) || ((0x1C <=? c) && (c <=? 0x20))
  || (c =? 0x85) || (c =? 0xA0) || (c =? 0x1680)
  || ((0x2000 <=? c) && (c <=? 0x200A))
  || (c =? 0x2028) || (c =? 0x2029) || (c =? 0x202F) || (c =? 0x205F)
  || (c =? 0x3000).

Fixpoint lstrip (s : str) : str :=
  match s with
  | [] => []
  | c :: t => if isspace c then lstrip t else s
  end.

Definition rstrip (s : str) : str := rev (lstrip (rev s)).

(** [s.strip()] *)
Definition strip (s : str) : str := rstrip (lstrip s).

(** [s.replace(c, '')] for a one-character [c]. *)
Definition remove_char (c : Z) (s : str) : str :=
  List.filter (fun x => negb (x =? c)) s.

Definition ascii_lower (c : Z) : Z :=
  if (0x41 <=? c) && (c <=? 0x5A) then c + 32 else c.

Definition isascii (s : str) : bool := forallb (fun c => c <? 0x80) s.

(** [sep.join(parts)] *)
Fixpoint join (sep : str) (parts : list str) : str :=
  match parts with
  | [] => []
  | [x] => x
  | x :: rest => x ++ sep ++ join sep rest
  end.

(** [s.split(sep)[-1]]: the text after the last occurrence of [sep] that
    [split] finds, scanning from the left without overlap. *)
Fixpoint split_last_fuel (n : nat) (sep s : str) : str :=
  match n with
  | O => s
  | S n' =>
    match find_after sep s with
    | Some r => split_last_fuel n' sep r
    | None => s
    end
  end.

Definition split_last (sep s : str) : str := split_last_fuel (length s) sep s.

(** [s.split(c)[0]] for a one-character [c]. *)
Fixpoint split_first (c : Z) (s : str) : str :=
  match s with
  | [] => []
  | x :: t => if x =? c then [] else x :: split_first c t
  end.

(** The last [n] elements of [l]: [l[-n:]] for [n > 0]. *)
Definition last_n {A} (n : nat) (l : list A) : list A := drop (length l - n) l.

(** [LIMIT limit] of SQLite: the first [limit] rows, all of them when [limit]
    is negative. *)
Definition sql_limit {A} (limit : Z) (rows : list A) : list A :=
  if limit <? 0 then rows else take (Z.to_nat limit) rows.

(** [str(n)] of an integer. *)
Definition str_of_Z (n : Z) : str :=
  py (DecimalString.NilZero.string_of_int (Z.to_int n)).

Definition nl : str := [0x0A].

(** ** The data model *)

(** The intents [detect_intent] can return: ['price'], ['tech'], ['default']. *)
Inductive Intent := Price | Tech | Default.

Definition intent_name (i : Intent) : str :=
  match i with
  | Price => py "price"
  | Tech => py "tech"
  | Default => py "default"
  end.

Definition is_price (i : Intent) : bool :=
  match i with
  | Price => true
  | _ => false
  end.

(** The dict [db_manager.get_ai_reply_settings] returns.  The keys the source
    indexes directly are fields; the keys it only reads with
    [settings.get(key, default)] are optional. *)
Record Settings := {
  ai_enabled : bool;
  api_key : str;
  base_url : str;
  model_name : str;
  custom_prompts : str;
  max_bargain_rounds : option Z;
  max_discount_percent : option Z;
  max_discount_amount : option Z
}.

(** One row of the table [ai_conversations]. *)
Record Turn := {
  t_cookie_id : str;
  t_chat_id : str;
  t_user_id : str;
  t_item_id : str;
  t_role : str;
  t_content : str;
  t_intent : option str
}.

(** A chat message, [{"role": ..., "content": ...}]. *)
Record Message := {
  msg_role : str;
  msg_content : str
}.

(** [item_info], read with [item_info.get(key, placeholder)]. *)
Record ItemInfo := {
  title : option str;
  price : option str;
  desc : option str
}.

(** An [OpenAI] client object. *)
Record Client := {
  client_api_key : str;
  client_base_url : str
}.

Inductive Agent := AgentInstance.

(** The arguments of [client.chat.completions.create]; [cr_thinking_disabled]
    stands for [extra_body = {"thinking": {"type": "disabled"}}], its absence
    for [extra_body = None]. *)
Record ChatRequest := {
  cr_model : str;
  cr_messages : list Message;
  cr_max_tokens : Z;
  cr_temperature : Q;
  cr_thinking_disabled : bool
}.

(** [response.choices[i].message] with its attributes [content] and
    [reasoning_content]; [None] is an absent or [None] attribute. *)
Record ChatMessage := {
  content : option str;
  reasoning_content : option str
}.

Record Choice := { message : ChatMessage }.

Record Response := { choices : list Choice }.

(** The DashScope request: url, bearer credential and JSON body. *)
Record DashRequest := {
  dr_url : str;
  dr_bearer : str;
  dr_prompt : str;
  dr_max_tokens : Z;
  dr_temperature : Q;
  dr_thinking_disabled : bool;
  dr_timeout : Z
}.

(** What [response.json()] gives as far as the source looks at it. *)
Inductive DashBody :=
| BodyNotJson
| BodyNoOutput
| BodyNoText
| BodyText (t : str).

Record HttpResponse := {
  status_code : Z;
  body : DashBody
}.

Inductive BackendCall :=
| ChatCall (c : Client) (r : ChatRequest)
| DashCall (r : DashRequest).

(** Statements run on the connection [db_manager.conn]. *)
Inductive DbOp :=
| SelectContext (chat_id cookie_id : str) (limit : Z)
| SelectBargainCount (chat_id cookie_id : str)
| InsertTurn (t : Turn).

Inductive exn :=
| ValueError
| IndexError
| RequestFailed
| MalformedResponse
| LibraryError (code : Z).

Inductive result (A : Type) :=
| Ok (a : A)
| Raise (e : exn).

Arguments Ok {A} a.
Arguments Raise {A} e.

(** The collaborators outside [ai_reply_engine.py]: the settings store
    ([db_manager.get_ai_reply_settings]), the clock ([time.time], in seconds),
    the [OpenAI] constructor and its chat completion call, [requests.post],
    [json.loads], the conditions under which a statement on the database
    connection raises (given the rows of [ai_conversations]), the order in
    which the store returns rows under [ORDER BY created_at DESC], and
    Unicode lower-casing of text that is not ASCII.

    [created_at] is a column that the [INSERT] of [save_conversation] does
    not write: its values come from the table's definition, which is not part
    of this file, and rows with the same value are returned in an order the
    store chooses.  [order_by_created_at_desc limit rows] is the order the
    store gives to the selected [rows] of a query with [LIMIT limit], before
    the limit cuts it. *)
Record Env := {
  get_ai_reply_settings : str -> Settings;
  time_time : Q;
  OpenAI : str -> str -> result Client;
  chat_completions_create : Client -> ChatRequest -> result Response;
  requests_post : DashRequest -> result HttpResponse;
  json_loads : str -> result (gmap str str);
  db_raises : DbOp -> list Turn -> bool;
  order_by_created_at_desc : Z -> list Turn -> list Turn;
  unicode_lower : str -> str
}.

(** The mutable state: the three dicts of [AIReplyEngine], the table
    [ai_conversations] in the order of insertion, and the calls made to a model
    backend so far. *)
Record State := {
  clients : gmap str Client;
  agents : gmap str Agent;
  client_last_used : gmap str Q;
  ai_conversations : list Turn;
  backend_calls : list BackendCall
}.

Definition set_cache (st : State) (cs : gmap str Client) (ags : gmap str Agent)
    (lu : gmap str Q) : State :=
  {| clients := cs; agents := ags; client_last_used := lu;
     ai_conversations := ai_conversations st; backend_calls := backend_calls st |}.

Definition set_conversations (st : State) (rows : list Turn) : State :=
  {| clients := clients st; agents := agents st;
     client_last_used := client_last_used st;
     ai_conversations := rows; backend_calls := backend_calls st |}.

Definition log_call (st : State) (c : BackendCall) : State :=
  {| clients := clients st; agents := agents st;
     client_last_used := client_last_used st;
     ai_conversations := ai_conversations st;
     backend_calls := backend_calls st ++ [c] |}.

(** The state of a fresh [AIReplyEngine()] over an empty table. *)
Definition init_state : State :=
  {| clients := ∅; agents := ∅; client_last_used := ∅;
     ai_conversations := []; backend_calls := [] |}.

(** ** Computations that change the state and may raise *)

Definition M (A : Type) : Type := State -> result A * State.

Definition ret {A} (a : A) : M A := fun st => (Ok a, st).

Definition raise {A} (e : exn) : M A := fun st => (Raise e, st).

Definition bind {A B} (m : M A) (k : A -> M B) : M B :=
  fun st =>
    match m st with
    | (Ok a, st') => k a st'
    | (Raise e, st') => (Raise e, st')
    end.

Definition lift {A} (r : result A) : M A := fun st => (r, st).

(** A call that cannot raise. *)
Definition total {A} (f : State -> A * State) : M A :=
  fun st => let '(a, st') := f st in (Ok a, st').

(** A read of the state. *)
Definition gets {A} (f : State -> A) : M A := fun st => (Ok (f st), st).

Definition modify (f : State -> State) : M unit := fun st => (Ok tt, f st).

(** [try: m  except Exception: return d] *)
Definition try_except {A} (m : M A) (d : A) : State -> A * State :=
  fun st =>
    match m st with
    | (Ok a, st') => (a, st')
    | (Raise _, st') => (d, st')
    end.

Notation "x <- m ;; k" := (bind m (fun x => k))
  (at level 100, m at next level, right associativity).
Notation "m ;;; k" := (bind m (fun _ => k))
  (at level 100, right associativity).

(** The truth value of a string: [if s:]. *)
Definition nonempty (s : str) : bool :=
  match s with
  | [] => false
  | _ :: _ => true
  end.

(** ** [_clean_thinking_content] and [_extract_response_content] *)

Definition think_open : str := py "<think>".
Definition think_close : str := py "</think>".

(** [re.sub(r'<think>.*?</think>', '', text, flags=re.DOTALL)]: scanning from
    the left, a [<think>] that is followed by a [</think>] is removed together
    with everything up to and including the first such [</think>], and the scan
    goes on after it; every other character is kept.  The fuel bounds the
    number of scan steps; [length text] steps are enough. *)
Fixpoint sub_think_fuel (n : nat) (s : str) : str :=
  match n with
  | O => []
  | S n' =>
    match s with
    | [] => []
    | c :: t =>
      if startswith think_open s then
        match find_after think_close (drop (length think_open) s) with
        | Some r => sub_think_fuel n' r
        | None => c :: sub_think_fuel n' t
        end
      else c :: sub_think_fuel n' t
    end
  end.

Definition re_sub_think (text : str) : str := sub_think_fuel (length text) text.

Definition _clean_thinking_content (text : str) : str :=
  if nonempty text then strip (re_sub_think text) else [].

(** The body of the [try] in [_extract_response_content]. *)
Definition extract_response_content_body (response : Response) : result str :=
  match choices response with
  | [] => Raise IndexError
  | choice :: _ =>
    let content := content (message choice) in
    let reasoning := reasoning_content (message choice) in
    let final_reply :=
      match content with
      | Some c =>
        if nonempty c then
          if contains think_open c then _clean_thinking_content c
          else strip c
        else []
      | None => []
      end in
    if nonempty final_reply then Ok final_reply
    else
      match reasoning with
      | Some (_ :: _) => Ok []
      | _ => Ok []
      end
  end.

Definition _extract_response_content (response : Response) : str :=
  match extract_response_content_body response with
  | Ok reply => reply
  | Raise _ => []
  end.

(** ** The conversation store ([ai_conversations]) *)

Definition in_conversation (chat_id cookie_id : str) (t : Turn) : bool :=
  bool_decide (t_chat_id t = chat_id) && bool_decide (t_cookie_id t = cookie_id).

Definition is_price_user_turn (t : Turn) : bool :=
  bool_decide (t_intent t = Some (py "price")) && bool_decide (t_role t = py "user").

(** The row [save_conversation] inserts. *)
Definition conversation_row (chat_id cookie_id user_id item_id role content : str)
    (intent : option str) : Turn :=
  {| t_cookie_id := cookie_id; t_chat_id := chat_id; t_user_id := user_id;
     t_item_id := item_id; t_role := role; t_content := content;
     t_intent := intent |}.

Definition message_of_turn (t : Turn) : Message :=
  {| msg_role := t_role t; msg_content := t_content t |}.

(** ** Prompts *)

Definition default_prompt_classify : str := py
"你是一个意图分类专家，需要判断用户消息的意图类型。
请根据用户消息内容，返回以下意图之一：
- price: 价格相关（议价、优惠、降价等）
- tech: 技术相关（产品参数、使用方法、故障等）
- default: 其他一般咨询

只返回意图类型，不要其他内容。".

Definition default_prompts (i : Intent) : str :=
  match i with
  | Price => py
"你是一位经验丰富的销售专家，擅长议价。
语言要求：简短直接，每句≤10字，总字数≤40字。
议价策略：
1. 根据议价次数递减优惠：第1次小幅优惠，第2次中等优惠，第3次最大优惠
2. 接近最大议价轮数时要坚持底线，强调商品价值
3. 优惠不能超过设定的最大百分比和金额
4. 语气要友好但坚定，突出商品优势
注意：结合商品信息、对话历史和议价设置，给出合适的回复。"
  | Tech => py
"你是一位技术专家，专业解答产品相关问题。
语言要求：简短专业，每句≤10字，总字数≤40字。
回答重点：产品功能、使用方法、注意事项。
注意：基于商品信息回答，避免过度承诺。"
  | Default => py
"你是一位资深电商卖家，提供优质客服。
语言要求：简短友好，每句≤10字，总字数≤40字。
回答重点：商品介绍、物流、售后等常见问题。
注意：结合商品信息，给出实用建议。"
  end.

Definition render_message (m : Message) : str :=
  msg_role m ++ py ": " ++ msg_content m.

(** Steps 7 to 9 of [generate_reply]: the user prompt. *)
Definition user_prompt (settings : Settings) (item_info : ItemInfo)
    (context : list Message) (bargain_count : Z) (message : str) : str :=
  let item_desc :=
    py "商品标题: " ++ default (py "未知") (title item_info) ++ nl
    ++ py "商品价格: " ++ default (py "未知") (price item_info) ++ py "元" ++ nl
    ++ py "商品描述: " ++ default (py "无") (desc item_info) in
  let context_str := join nl (List.map render_message (last_n 10 context)) in
  py "商品信息：" ++ nl ++ item_desc ++ nl ++ nl
  ++ py "对话历史：" ++ nl ++ context_str ++ nl ++ nl
  ++ py "议价设置：" ++ nl
  ++ py "- 当前议价次数：" ++ str_of_Z bargain_count ++ nl
  ++ py "- 最大议价轮数：" ++ str_of_Z (default 3 (max_bargain_rounds settings)) ++ nl
  ++ py "- 最大优惠百分比：" ++ str_of_Z (default 10 (max_discount_percent settings)) ++ py "%" ++ nl
  ++ py "- 最大优惠金额：" ++ str_of_Z (default 100 (max_discount_amount settings)) ++ py "元" ++ nl ++ nl
  ++ py "用户消息：" ++ message ++ nl ++ nl
  ++ py "请根据以上信息生成回复：".

(** Steps 6 to 10 of [generate_reply]: the two messages sent to the model. *)
Definition generate_reply_messages (settings : Settings) (prompts : gmap str str)
    (intent : Intent) (item_info : ItemInfo) (context : list Message)
    (bargain_count : Z) (message : str) : list Message :=
  let system_prompt := default (default_prompts intent) (prompts !! intent_name intent) in
  [ {| msg_role := py "system"; msg_content := system_prompt |};
    {| msg_role := py "user";
       msg_content := user_prompt settings item_info context bargain_count message |} ].

(** The two messages [detect_intent] sends to the model. *)
Definition classify_messages (prompts : gmap str str) (message : str) : list Message :=
  let classify_prompt := default default_prompt_classify (prompts !! py "classify") in
  [ {| msg_role := py "system"; msg_content := classify_prompt |};
    {| msg_role := py "user"; msg_content := message |} ].

(** The prompt [_call_dashscope_api] merges the messages into. *)
Definition dashscope_prompt (messages : list Message) : str :=
  let '(system_content, user_content) :=
    fold_left
      (fun acc msg =>
         if bool_decide (msg_role msg = py "system") then (msg_content msg, snd acc)
         else if bool_decide (msg_role msg = py "user") then (fst acc, msg_content msg)
         else acc)
      messages ([], []) in
  if nonempty system_content && nonempty user_content then
    system_content ++ nl ++ nl ++ py "用户问题：" ++ user_content ++ nl ++ nl
    ++ py "请直接回答用户的问题："
  else if nonempty user_content then user_content
  else join nl (List.map render_message messages).

(** ** The negotiation cap (step 5 of [generate_reply]) *)

Definition refuse_reply : str := py "抱歉，这个价格已经是最优惠的了，不能再便宜了哦！".

Definition bargain_limit_reached (intent : Intent) (bargain_count max_bargain_rounds : Z) : bool :=
  if is_price intent then
    if bargain_count >=? max_bargain_rounds then true else false
  else false.

(** The post-processing of the classifier's answer in [detect_intent]. *)
Definition normalize_intent_text (lowered : str) : str :=
  strip (remove_char 0x3002 (remove_char 0x2E lowered)).

Definition intent_of_text (intent : str) : Intent :=
  if contains (py "price") intent || contains (py "价格") intent then Price
  else if contains (py "tech") intent || contains (py "技术") intent then Tech
  else if contains (py "default") intent || contains (py "其他") intent then Default
  else Default.

(** ** The engine over its collaborators *)

Section Engine.

Variable w : Env.

(** [s.lower()]: on ASCII text the letters [A-Z] are mapped to [a-z]; other
    text goes through the Unicode tables. *)
Definition lower (s : str) : str :=
  if isascii s then List.map ascii_lower s else unicode_lower w s.

(** [get_client]: the settings are read, and a client is built, only when
    none is cached for the account; a constructor that raises gives [None].
    Every fetch that returns a client records the time. *)
Definition get_client (cookie_id : str) (st : State) : option Client * State :=
  match clients st !! cookie_id with
  | Some client =>
    (Some client,
     set_cache st (clients st) (agents st)
       (<[cookie_id := time_time w]> (client_last_used st)))
  | None =>
    let settings := get_ai_reply_settings w cookie_id in
    if negb (ai_enabled settings) || negb (nonempty (api_key settings)) then (None, st)
    else
      match OpenAI w (api_key settings) (base_url settings) with
      | Raise _ => (None, st)
      | Ok client =>
        (Some client,
         set_cache st (<[cookie_id := client]> (clients st)) (agents st)
           (<[cookie_id := time_time w]> (client_last_used st)))
      end
  end.

Definition custom_model_names : list str :=
  [py "custom"; py "自定义"; py "dashscope"; py "qwen-custom"].

(** [_is_dashscope_api] *)
Definition _is_dashscope_api (settings : Settings) : bool :=
  let is_custom_model := bool_decide (lower (model_name settings) ∈ custom_model_names) in
  let is_dashscope_url := contains (py "dashscope.aliyuncs.com") (base_url settings) in
  is_custom_model && is_dashscope_url.

(** [_call_dashscope_api]: [ValueError] when the url has no [/apps/] segment;
    otherwise one POST, whose failure, non-200 status, unreadable body
    ([LibraryError 0] stands for what [response.json()] raises) or missing
    [output.text] raises; the text is returned stripped. *)
Definition _call_dashscope_api (settings : Settings) (messages : list Message)
    (max_tokens : Z) (temperature : Q) : M str :=
  let url_base := base_url settings in
  if contains (py "/apps/") url_base then
    let app_id := split_first 0x2F (split_last (py "/apps/") url_base) in
    let url := py "https://dashscope.aliyuncs.com/api/v1/apps/" ++ app_id ++ py "/completion" in
    let request :=
      {| dr_url := url;
         dr_bearer := api_key settings;
         dr_prompt := dashscope_prompt messages;
         dr_max_tokens := max_tokens;
         dr_temperature := temperature;
         dr_thinking_disabled := contains (py "glm-4.5") (lower (model_name settings));
         dr_timeout := 30 |} in
    modify (fun st => log_call st (DashCall request)) ;;;
    response <- lift (requests_post w request) ;;
    if negb (status_code response =? 200) then raise RequestFailed
    else
      match body response with
      | BodyText t => ret (strip t)
      | BodyNotJson => raise (LibraryError 0)
      | BodyNoOutput | BodyNoText => raise MalformedResponse
      end
  else raise ValueError.

(** [_call_openai_api]: one chat completion, normalised by
    [_extract_response_content]; what the call raises is raised again. *)
Definition _call_openai_api (client : Client) (settings : Settings)
    (messages : list Message) (max_tokens : Z) (temperature : Q) : M str :=
  let model := model_name settings in
  let request :=
    {| cr_model := model;
       cr_messages := messages;
       cr_max_tokens := max_tokens;
       cr_temperature := temperature;
       cr_thinking_disabled := contains (py "glm-4.5") (lower model) |} in
  modify (fun st => log_call st (ChatCall client request)) ;;;
  resp <- lift (chat_completions_create w client request) ;;
  ret (_extract_response_content resp).

Definition is_ai_enabled (cookie_id : str) : bool :=
  ai_enabled (get_ai_reply_settings w cookie_id).

(** [json.loads(settings['custom_prompts']) if settings['custom_prompts'] else {}] *)
Definition load_custom_prompts (settings : Settings) : result (gmap str str) :=
  if nonempty (custom_prompts settings) then json_loads w (custom_prompts settings)
  else Ok ∅.

Definition intent_of_response (response_text : str) : Intent :=
  intent_of_text (normalize_intent_text (lower response_text)).

(** The body of the [try] in [detect_intent]. *)
Definition detect_intent_body (message cookie_id : str) : M Intent :=
  let settings := get_ai_reply_settings w cookie_id in
  if negb (ai_enabled settings) || negb (nonempty (api_key settings)) then ret Default
  else
    prompts <- lift (load_custom_prompts settings) ;;
    let messages := classify_messages prompts message in
    if _is_dashscope_api settings then
      response_text <- _call_dashscope_api settings messages 100 (1 # 10)%Q ;;
      ret (intent_of_response response_text)
    else
      client <- total (get_client cookie_id) ;;
      match client with
      | None => ret Default
      | Some client =>
        response_text <- _call_openai_api client settings messages 1000 (1 # 10)%Q ;;
        ret (intent_of_response response_text)
      end.

Definition detect_intent (message cookie_id : str) : State -> Intent * State :=
  try_except (detect_intent_body message cookie_id) Default.

(** [get_conversation_context]: the rows of the conversation in the order the
    store gives them under [ORDER BY created_at DESC], cut by [LIMIT] (a
    negative limit cuts nothing) and then reversed; [[]] when the query
    raises. *)
Definition get_conversation_context (chat_id cookie_id : str) (limit : Z)
    (st : State) : list Message :=
  let rows := ai_conversations st in
  if db_raises w (SelectContext chat_id cookie_id limit) rows then []
  else
    let selected := List.filter (in_conversation chat_id cookie_id) rows in
    let results := sql_limit limit (order_by_created_at_desc w limit selected) in
    List.map message_of_turn (rev results).

(** [save_conversation]: one insert; when it raises nothing is stored and the
    error is swallowed. *)
Definition save_conversation (chat_id cookie_id user_id item_id role content : str)
    (intent : option str) (st : State) : State :=
  let row := conversation_row chat_id cookie_id user_id item_id role content intent in
  if db_raises w (InsertTurn row) (ai_conversations st) then st
  else set_conversations st (ai_conversations st ++ [row]).

(** [get_bargain_count]: the number of [user] turns of the conversation
    tagged [price], 0 when the query raises. *)
Definition get_bargain_count (chat_id cookie_id : str) (st : State) : Z :=
  let rows := ai_conversations st in
  if db_raises w (SelectBargainCount chat_id cookie_id) rows then 0
  else
    Z.of_nat
      (length (List.filter
                 (fun t => in_conversation chat_id cookie_id t && is_price_user_turn t)
                 rows)).

(** [increment_bargain_count] is [pass]. *)
Definition increment_bargain_count (chat_id cookie_id : str) (st : State) : State := st.

(** Step 10 of [generate_reply]: the generation call.  [None] is the early
    [return None] taken when no client is available. *)
Definition generate_reply_call (settings : Settings) (cookie_id : str)
    (messages : list Message) : M (option str) :=
  if _is_dashscope_api settings then
    reply <- _call_dashscope_api settings messages 2000 (7 # 10)%Q ;;
    ret (Some reply)
  else
    client <- total (get_client cookie_id) ;;
    match client with
    | None => ret None
    | Some client =>
      reply <- _call_openai_api client settings messages 2000 (7 # 10)%Q ;;
      ret (Some reply)
    end.

(** The refusal taken at step 5: both turns are saved, no model is called. *)
Definition refuse_bargain (message chat_id cookie_id user_id item_id : str)
    (intent : Intent) : M (option str) :=
  modify (save_conversation chat_id cookie_id user_id item_id (py "user") message
            (Some (intent_name intent))) ;;;
  modify (save_conversation chat_id cookie_id user_id item_id (py "assistant") refuse_reply
            (Some (intent_name intent))) ;;;
  ret (Some refuse_reply).

(** Steps 6 to 12 of [generate_reply]. *)
Definition generate_and_save (settings : Settings) (intent : Intent)
    (context : list Message) (bargain_count : Z) (message : str) (item_info : ItemInfo)
    (chat_id cookie_id user_id item_id : str) : M (option str) :=
  prompts <- lift (load_custom_prompts settings) ;;
  let messages :=
    generate_reply_messages settings prompts intent item_info context bargain_count message in
  called <- generate_reply_call settings cookie_id messages ;;
  match called with
  | None => ret None
  | Some reply =>
    if negb (nonempty reply) then ret None
    else
      modify (save_conversation chat_id cookie_id user_id item_id (py "user") message
                (Some (intent_name intent))) ;;;
      modify (save_conversation chat_id cookie_id user_id item_id (py "assistant") reply
                (Some (intent_name intent))) ;;;
      (if is_price intent then modify (increment_bargain_count chat_id cookie_id)
       else ret tt) ;;;
      ret (Some reply)
  end.

(** The body of the [try] in [generate_reply]. *)
Definition generate_reply_body (message : str) (item_info : ItemInfo)
    (chat_id cookie_id user_id item_id : str) : M (option str) :=
  let settings := get_ai_reply_settings w cookie_id in
  intent <- total (detect_intent message cookie_id) ;;
  context <- gets (get_conversation_context chat_id cookie_id 20) ;;
  bargain_count <- gets (get_bargain_count chat_id cookie_id) ;;
  if bargain_limit_reached intent bargain_count (default 3 (max_bargain_rounds settings)) then
    refuse_bargain message chat_id cookie_id user_id item_id intent
  else
    generate_and_save settings intent context bargain_count message item_info
      chat_id cookie_id user_id item_id.

Definition generate_reply (message : str) (item_info : ItemInfo)
    (chat_id cookie_id user_id item_id : str) (st : State) : option str * State :=
  if negb (is_ai_enabled cookie_id) then (None, st)
  else try_except (generate_reply_body message item_info chat_id cookie_id user_id item_id)
         None st.

(** [self.clients.pop(c, None)], [self.client_last_used.pop(c, None)],
    [self.agents.pop(c, None)] *)
Definition pop_client (st : State) (cookie_id : str) : State :=
  set_cache st (delete cookie_id (clients st)) (delete cookie_id (agents st))
    (delete cookie_id (client_last_used st)).

Definition clear_client_cache (cookie_id : option str) (st : State) : State :=
  match cookie_id with
  | Some (c :: s) =>
    set_cache st (delete (c :: s) (clients st)) (agents st)
      (delete (c :: s) (client_last_used st))
  | _ => set_cache st ∅ (agents st) ∅
  end.

(** [current_time - last_used > max_idle_seconds] *)
Definition is_expired (max_idle_hours : Z) (last_used : Q) : bool :=
  negb (Qle_bool (time_time w - last_used) (inject_Z (max_idle_hours * 3600))).

Definition expired_clients (max_idle_hours : Z) (st : State) : list str :=
  List.map fst
    (List.filter (fun item => is_expired max_idle_hours (snd item))
       (map_to_list (client_last_used st))).

(** [cleanup_unused_clients]: the expired accounts are collected first, then
    popped from the three dicts. *)
Definition cleanup_unused_clients (max_idle_hours : Z) (st : State) : State :=
  fold_left pop_client (expired_clients max_idle_hours st) st.

End Engine.

(** ** Specifications stated on the text *)

(** [k] occurs in [n]. *)
Definition occurs_in (k n : str) : Prop := exists a b, n = a ++ k ++ b.

(** What "remove every [<think>...</think>] block, non-greedy" means, stated on
    the text rather than on the scan: the text is read from the left; a block
    is [<think>], a body, and the first [</think>] after the opening marker;
    a character at which no block starts is kept. *)
Inductive think_blocks_removed : str -> str -> Prop :=
| tbr_nil : think_blocks_removed [] []
| tbr_block (body rest out : str) :
    (forall a r, body ++ think_close ++ rest = a ++ think_close ++ r ->
                 (length body <= length a)%nat) ->
    think_blocks_removed rest out ->
    think_blocks_removed (think_open ++ body ++ think_close ++ rest) out
| tbr_keep (c : Z) (s out : str) :
    (forall body rest, c :: s <> think_open ++ body ++ think_close ++ rest) ->
    think_blocks_removed s out ->
    think_blocks_removed (c :: s) (c :: out).

Definition response_of (c r : option str) : Response :=
  {| choices := [ {| message := {| content := c; reasoning_content := r |} |} ] |}.

(** ** Concrete collaborators, used to run the engine *)

Definition demo_settings (enabled : bool) (cap : option Z) : Settings :=
  {| ai_enabled := enabled; api_key := py "sk-demo";
     base_url := py "https://api.example.com/v1"; model_name := py "gpt-4";
     custom_prompts := []; max_bargain_rounds := cap;
     max_discount_percent := None; max_discount_amount := None |}.

(** A backend that answers the classification request (the one with
    [max_tokens = 1000]) with [label] and every other request with [reply]. *)
Definition demo_backend (label : str) (reply : result Response) (r : ChatRequest)
    : result Response :=
  if cr_max_tokens r =? 1000 then Ok (response_of (Some label) None) else reply.

(** The store of the concrete collaborators stamps every row with a later
    [created_at] than the rows before it, so that [ORDER BY created_at DESC]
    returns the rows newest first. *)
Definition demo_env (settings : Settings) (backend : ChatRequest -> result Response)
    (raises : DbOp -> list Turn -> bool) : Env :=
  {| get_ai_reply_settings := fun _ => settings;
     time_time := 1000;
     OpenAI := fun key url => Ok {| client_api_key := key; client_base_url := url |};
     chat_completions_create := fun _ r => backend r;
     requests_post := fun _ => Raise (LibraryError 1);
     json_loads := fun _ => Raise (LibraryError 2);
     db_raises := raises;
     order_by_created_at_desc := fun _ rows => rev rows;
     unicode_lower := fun s => s |}.

Definition never_raises (op : DbOp) (rows : list Turn) : bool := false.

Definition demo_item : ItemInfo :=
  {| title := Some (py "camera"); price := Some (py "300"); desc := None |}.

(** A table that already holds [n] price turns of the buyer in chat [c1] of
    account [acc]. *)
Definition price_history (n : nat) : State :=
  set_conversations init_state
    (repeat (conversation_row (py "c1") (py "acc") (py "u1") (py "i1") (py "user")
               (py "cheaper?") (Some (py "price"))) n).

(** An account with AI switched off. *)
Definition env_disabled : Env :=
  demo_env (demo_settings false None) (demo_backend (py "price") (Raise IndexError))
    never_raises.

(** An enabled account (cap 3) whose model classifies the message as [price]
    and then returns only deliberation: empty [content], non-empty
    [reasoning_content]. *)
Definition env_only_reasoning : Env :=
  demo_env (demo_settings true (Some 3))
    (demo_backend (py "price")
       (Ok (response_of (Some []) (Some (py "the buyer wants a discount")))))
    never_raises.

(** An enabled account with cap [cap] whose model classifies the message as
    [price] and answers [ok] to a generation request. *)
Definition env_price (cap : option Z) (raises : DbOp -> list Turn -> bool) : Env :=
  demo_env (demo_settings true cap)
    (demo_backend (py "price") (Ok (response_of (Some (py "ok")) None)))
    raises.

Definition call_max_tokens (c : BackendCall) : Z :=
  match c with
  | ChatCall _ r => cr_max_tokens r
  | DashCall r => dr_max_tokens r
  end.


Definition count_raises (op : DbOp) (rows : list Turn) : bool :=
  match op with
  | SelectBargainCount _ _ => true
  | _ => false
  end.

(** The clock of [w] set to [t]. *)
Definition at_time (t : Q) (w : Env) : Env :=
  {| get_ai_reply_settings := get_ai_reply_settings w;
     time_time := t;
     OpenAI := OpenAI w;
     chat_completions_create := chat_completions_create w;
     requests_post := requests_post w;
     json_loads := json_loads w;
     db_raises := db_raises w;
     order_by_created_at_desc := order_by_created_at_desc w;
     unicode_lower := unicode_lower w |}.

(** The store of [w] made to give every row the same [created_at] and to
    return rows that tie in the order of their insertion. *)
Definition same_stamp (w : Env) : Env :=
  {| get_ai_reply_settings := get_ai_reply_settings w;
     time_time := time_time w;
     OpenAI := OpenAI w;
     chat_completions_create := chat_completions_create w;
     requests_post := requests_post w;
     json_loads := json_loads w;
     db_raises := db_raises w;
     order_by_created_at_desc := fun _ rows => rows;
     unicode_lower := unicode_lower w |}.

(** A client for account [acc], created and last used at time 1000. *)
Definition cached_at_1000 : State :=
  snd (get_client (env_price None never_raises) (py "acc") init_state).

(** An account on the DashScope protocol: the application [abc123], a model
    that answers the classification request with the label in Chinese and a
    generation request with an offer. *)
Definition dashscope_settings : Settings :=
  {| ai_enabled := true; api_key := py "sk-demo";
     base_url := py "https://dashscope.aliyuncs.com/api/v1/apps/abc123/completion";
     model_name := py "Custom"; custom_prompts := []; max_bargain_rounds := None;
     max_discount_percent := None; max_discount_amount := None |}.

Definition env_dashscope : Env :=
  {| get_ai_reply_settings := fun _ => dashscope_settings;
     time_time := 1000;
     OpenAI := fun key url => Ok {| client_api_key := key; client_base_url := url |};
     chat_completions_create := fun _ _ => Raise (LibraryError 3);
     requests_post :=
       fun r =>
         if dr_max_tokens r =? 100
         then Ok {| status_code := 200; body := BodyText (py " 价格。 ") |}
         else Ok {| status_code := 200; body := BodyText (py " 可以便宜十元 ") |};
     json_loads := fun _ => Raise (LibraryError 2);
     db_raises := never_raises;
     order_by_created_at_desc := fun _ rows => rev rows;
     unicode_lower := fun s => s |}.

(** ** Names for parts of the operations above *)

(** The application id [_call_dashscope_api] reads from the base url:
    [base_url.split('/apps/')[-1].split('/')[0]]. *)
Definition dashscope_app_id (url : str) : str :=
  split_first 0x2F (split_last (py "/apps/") url).

(** The url [_call_dashscope_api] posts to. *)
Definition dashscope_url (url : str) : str :=
  py "https://dashscope.aliyuncs.com/api/v1/apps/" ++ dashscope_app_id url
  ++ py "/completion".

(** The two kinds of message the engine sends. *)
Definition system_message (s : str) : Message :=
  {| msg_role := py "system"; msg_content := s |}.

Definition user_message (u : str) : Message :=
  {| msg_role := py "user"; msg_content := u |}.

(** The rows of one conversation in the order of their insertion: the rows
    that the [WHERE] clause of [get_conversation_context] selects. *)
Definition conversation_rows (chat_id cookie_id : str) (st : State) : list Turn :=
  List.filter (in_conversation chat_id cookie_id) (ai_conversations st).

(** Their messages, in the order of insertion. *)
Definition conversation_messages (chat_id cookie_id : str) (st : State) : list Message :=
  List.map message_of_turn (conversation_rows chat_id cookie_id st).

(** Whatever order the store gives them, the rows it returns are the rows
    selected, each as often as it was selected. *)
Definition store_returns_selected (w : Env) : Prop :=
  forall limit rows, order_by_created_at_desc w limit rows ≡ₚ rows.

(** The store returns the rows of the conversation newest first, as it does
    when each of them was stamped later than the one inserted before it. *)
Definition newest_first (w : Env) (chat_id cookie_id : str) (limit : Z) (st : State) : Prop :=
  order_by_created_at_desc w limit (conversation_rows chat_id cookie_id st)
  = rev (conversation_rows chat_id cookie_id st).

(** Every cached client has a recorded time of last use. *)
Definition cache_consistent (st : State) : Prop :=
  forall c, is_Some (clients st !! c) -> is_Some (client_last_used st !! c).

(** From [st] to [st']: at most [n] more backend calls are on record, the
    agents and the cache entries of every account but [cookie_id] are as they
    were, and a consistent cache stays consistent. *)
Definition cache_step (cookie_id : str) (n : nat) (st st' : State) : Prop :=
  agents st' = agents st /\
  (exists calls, backend_calls st' = backend_calls st ++ calls /\ (length calls <= n)%nat) /\
  (forall c, c <> cookie_id ->
             clients st' !! c = clients st !! c /\
             client_last_used st' !! c = client_last_used st !! c) /\
  (cache_consistent st -> cache_consistent st').

(** * Properties *)

Example py_ascii : py "a/Z" = [0x61; 0x2F; 0x5A].
Proof. reflexivity. Qed.

Example py_cjk : py "价格。" = [0x4EF7; 0x683C; 0x3002].
Proof. reflexivity. Qed.

Example str_of_Z_examples : str_of_Z 0 = py "0" /\ str_of_Z 42 = py "42" /\ str_of_Z (-7) = py "-7".
Proof. repeat split; reflexivity. Qed.

(** ** Facts about the string operations *)

Lemma startswith_spec (p s : str) :
  startswith p s = true <-> exists r, s = p ++ r.
Proof.
  revert s. induction p as [|a p IH]; intros s; simpl.
  - split; [intros _; exists s; reflexivity | reflexivity].
  - destruct s as [|b s].
    + split; [discriminate | intros [r Hr]; discriminate].
    + rewrite andb_true_iff, Z.eqb_eq, IH. split.
      * intros [-> [r ->]]. exists r. reflexivity.
      * intros [r Hr]. injection Hr as -> ->. split; [reflexivity | exists r; reflexivity].
Qed.

Lemma contains_spec (p s : str) :
  contains p s = true <-> exists a b, s = a ++ p ++ b.
Proof.
  induction s as [|c t IH]; simpl.
  - rewrite orb_false_r, startswith_spec. split.
    + intros [r Hr]. exists [], r. exact Hr.
    + intros (a & b & H). destruct a; [exists b; exact H | discriminate].
  - rewrite orb_true_iff, startswith_spec, IH. split.
    + intros [[r Hr] | (a & b & ->)].
      * exists [], r. exact Hr.
      * exists (c :: a), b. reflexivity.
    + intros (a & b & H). destruct a as [|x a].
      * left. exists b. exact H.
      * right. injection H as -> ->. exists a, b. reflexivity.
Qed.

Lemma contains_false (p s : str) :
  contains p s = false <-> forall a b, s <> a ++ p ++ b.
Proof.
  split.
  - intros H a b E. assert (contains p s = true) by (apply contains_spec; eauto). congruence.
  - intros H. destruct (contains p s) eqn:E; [|reflexivity].
    apply contains_spec in E as (a & b & E). destruct (H a b E).
Qed.

(** [find_after] returns what follows the leftmost occurrence. *)
Lemma find_after_Some (p s r : str) :
  find_after p s = Some r ->
  exists a, s = a ++ p ++ r /\
            forall a' r', s = a' ++ p ++ r' -> (length a <= length a')%nat.
Proof.
  revert r. induction s as [|c t IH]; intros r; simpl.
  - destruct (startswith p []) eqn:E; [|discriminate].
    intros [= <-]. apply startswith_spec in E as [r' E].
    symmetry in E. apply app_eq_nil in E as [-> ->].
    exists []. split; [reflexivity | intros; simpl; lia].
  - destruct (startswith p (c :: t)) eqn:E.
    + intros [= <-]. apply startswith_spec in E as [r' E].
      exists []. split; [|intros; simpl; lia].
      simpl. rewrite E. rewrite drop_app_length. reflexivity.
    + intros H. destruct (IH _ H) as (a & -> & Hmin).
      exists (c :: a). split; [reflexivity|].
      intros a' r' E'. destruct a' as [|x a'].
      * assert (startswith p (c :: a ++ p ++ r) = true)
          by (apply startswith_spec; exists r'; exact E').
        congruence.
      * injection E' as _ E'. simpl. specialize (Hmin _ _ E'). lia.
Qed.

Lemma find_after_None (p s : str) :
  find_after p s = None <-> contains p s = false.
Proof.
  induction s as [|c t IH]; simpl.
  - destruct (startswith p []); simpl; split; congruence.
  - destruct (startswith p (c :: t)); simpl; [split; congruence | exact IH].
Qed.

(** [split_last] ends within [length s] steps when the separator is not
    empty. *)
Lemma split_last_fuel_enough (sep s : str) (n : nat) :
  sep <> [] -> (length s <= n)%nat -> split_last_fuel n sep s = split_last sep s.
Proof.
  intros Hsep. unfold split_last.
  assert (forall n m s, (length s <= n)%nat -> (length s <= m)%nat ->
                        split_last_fuel n sep s = split_last_fuel m sep s) as H.
  { clear n s. induction n as [|n IH]; intros m s Hn Hm.
    - destruct s; [|simpl in Hn; lia].
      destruct m; simpl; [reflexivity|].
      destruct sep; [congruence|reflexivity].
    - destruct m as [|m].
      + destruct s; [|simpl in Hm; lia]. simpl.
        destruct sep; [congruence|reflexivity].
      + simpl. destruct (find_after sep s) as [r|] eqn:E; [|reflexivity].
        apply find_after_Some in E as (a & -> & _).
        rewrite !length_app in Hn, Hm.
        assert (length sep > 0)%nat by (destruct sep; [congruence | simpl; lia]).
        apply IH; lia. }
  intros Hn. apply H; [exact Hn | reflexivity].
Qed.

Lemma find_after_first (p a r : str) :
  (forall a' r', a ++ p ++ r = a' ++ p ++ r' -> (length a <= length a')%nat) ->
  find_after p (a ++ p ++ r) = Some r.
Proof.
  intros Hmin. destruct (find_after p (a ++ p ++ r)) as [r0|] eqn:E.
  - apply find_after_Some in E as (a0 & E & Hmin0).
    assert (length a0 = length a) as Hlen.
    { apply Nat.le_antisymm; [apply (Hmin0 a r); reflexivity | apply (Hmin a0 r0); exact E]. }
    apply app_inj_1 in E as [_ E]; [|symmetry; exact Hlen].
    apply app_inv_head in E. congruence.
  - apply find_after_None in E. rewrite contains_false in E. destruct (E a r). reflexivity.
Qed.

(** ** Removal of deliberation blocks *)

Lemma think_open_eq : think_open = [60; 116; 104; 105; 110; 107; 62].
Proof. reflexivity. Qed.

Lemma think_close_eq : think_close = [60; 47; 116; 104; 105; 110; 107; 62].
Proof. reflexivity. Qed.

Lemma find_after_length (p s r : str) :
  find_after p s = Some r -> (length r + length p <= length s)%nat.
Proof.
  intros H. apply find_after_Some in H as (a & -> & _).
  rewrite !length_app. lia.
Qed.

Lemma sub_think_fuel_removed (n : nat) (s : str) :
  (length s <= n)%nat -> think_blocks_removed s (sub_think_fuel n s).
Proof.
  revert s. induction n as [|n IH]; intros s Hlen.
  - destruct s; [constructor | simpl in Hlen; lia].
  - destruct s as [|c t]; [constructor|].
    cbn [sub_think_fuel].
    destruct (startswith think_open (c :: t)) eqn:Hopen.
    + apply startswith_spec in Hopen as [s' Hs'].
      rewrite Hs', drop_app_length.
      destruct (find_after think_close s') as [r|] eqn:Hclose.
      * pose proof (find_after_length _ _ _ Hclose) as Hr.
        apply find_after_Some in Hclose as (body & -> & Hmin).
        apply tbr_block; [exact Hmin|].
        apply IH. rewrite Hs', !length_app in Hlen.
        rewrite !length_app in Hr. rewrite think_open_eq in Hlen. simpl in Hlen. lia.
      * rewrite <- Hs'. apply tbr_keep.
        -- intros body rest E. rewrite Hs' in E. apply app_inv_head in E.
           apply find_after_None in Hclose. rewrite contains_false in Hclose.
           exact (Hclose _ _ E).
        -- apply IH. simpl in Hlen. lia.
    + apply tbr_keep.
      * intros body rest E.
        assert (startswith think_open (c :: t) = true)
          by (apply startswith_spec; eexists; exact E).
        congruence.
      * apply IH. simpl in Hlen. lia.
Qed.

Lemma re_sub_think_removed (s : str) : think_blocks_removed s (re_sub_think s).
Proof. apply sub_think_fuel_removed. reflexivity. Qed.

Lemma think_blocks_removed_inv (s o : str) :
  think_blocks_removed s o ->
  (s = [] /\ o = []) \/
  (exists body rest,
      s = think_open ++ body ++ think_close ++ rest /\
      (forall a r, body ++ think_close ++ rest = a ++ think_close ++ r ->
                   (length body <= length a)%nat) /\
      think_blocks_removed rest o) \/
  (exists c s' o',
      s = c :: s' /\ o = c :: o' /\
      (forall body rest, c :: s' <> think_open ++ body ++ think_close ++ rest) /\
      think_blocks_removed s' o').
Proof.
  destruct 1 as [|body rest out Hmin H|c s out Hno H].
  - left. split; reflexivity.
  - right; left. exists body, rest. repeat split; assumption.
  - right; right. exists c, s, out. repeat split; assumption.
Qed.

(** The relation determines its result: [re_sub_think] is the one function
    that satisfies it. *)
Lemma think_blocks_removed_functional (s o1 o2 : str) :
  think_blocks_removed s o1 -> think_blocks_removed s o2 -> o1 = o2.
Proof.
  intros H1. revert o2.
  induction H1 as [|body rest out Hmin H1 IH|c s out Hno H1 IH]; intros o2 H2;
    apply think_blocks_removed_inv in H2
      as [[E ->]|[(body' & rest' & E & Hmin' & H2)|(c' & s' & o' & E & -> & Hno' & H2)]].
  - reflexivity.
  - rewrite think_open_eq in E. discriminate.
  - discriminate.
  - rewrite think_open_eq in E. discriminate.
  - apply app_inv_head in E.
    assert (length body = length body') as Hlen.
    { apply Nat.le_antisymm; [apply (Hmin _ _ E) | apply (Hmin' body rest); symmetry; exact E]. }
    apply app_inj_1 in E as [_ E]; [|exact Hlen].
    apply app_inv_head in E. subst rest'. apply IH. exact H2.
  - destruct (Hno' body rest). symmetry. exact E.
  - discriminate.
  - destruct (Hno _ _ E).
  - injection E as <- <-. f_equal. apply IH. exact H2.
Qed.

Lemma re_sub_think_unique (s o : str) :
  think_blocks_removed s o -> re_sub_think s = o.
Proof.
  intros H. exact (think_blocks_removed_functional _ _ _ (re_sub_think_removed s) H).
Qed.

(** The scan ends within [length s] steps: more fuel gives the same text. *)
Lemma sub_think_fuel_enough (n : nat) (s : str) :
  (length s <= n)%nat -> sub_think_fuel n s = re_sub_think s.
Proof.
  intros H. symmetry. apply re_sub_think_unique, sub_think_fuel_removed, H.
Qed.

Lemma re_sub_think_nil : re_sub_think [] = [].
Proof. reflexivity. Qed.

Lemma re_sub_think_block (body rest : str) :
  (forall a r, body ++ think_close ++ rest = a ++ think_close ++ r ->
               (length body <= length a)%nat) ->
  re_sub_think (think_open ++ body ++ think_close ++ rest) = re_sub_think rest.
Proof.
  intros Hmin. apply re_sub_think_unique, tbr_block; [exact Hmin|].
  apply re_sub_think_removed.
Qed.

Lemma re_sub_think_keep (c : Z) (s : str) :
  (forall body rest, c :: s <> think_open ++ body ++ think_close ++ rest) ->
  re_sub_think (c :: s) = c :: re_sub_think s.
Proof.
  intros Hno. apply re_sub_think_unique, tbr_keep; [exact Hno|].
  apply re_sub_think_removed.
Qed.

Lemma no_close_kept (s : str) :
  contains think_close s = false -> think_blocks_removed s s.
Proof.
  induction s as [|c t IH]; intros H; [constructor|].
  apply tbr_keep.
  - intros body rest E. rewrite contains_false in H.
    apply (H (think_open ++ body) rest). rewrite <- app_assoc. exact E.
  - apply IH. simpl in H. apply orb_false_iff in H as [_ H]. exact H.
Qed.

Lemma no_close_after_open (post : str) :
  contains think_close post = false -> contains think_close (think_open ++ post) = false.
Proof.
  intros H. rewrite think_open_eq, think_close_eq in *. simpl. exact H.
Qed.

(** An end marker found in [x ++ <think> ++ post], where [post] has none, lies
    within [x]: the two markers cannot overlap. *)
Lemma close_before_open (a x post r : str) :
  contains think_close post = false ->
  x ++ think_open ++ post = a ++ think_close ++ r ->
  exists r', x = a ++ think_close ++ r'.
Proof.
  intros Hpost. revert x. induction a as [|y a IH]; intros x E.
  - rewrite think_open_eq, think_close_eq in *. simpl in E.
    do 8 (destruct x as [|? x]; [simpl in E; discriminate E || (exfalso; simplify_eq)|]).
    simpl in E. simplify_eq. eexists. reflexivity.
  - destruct x as [|x0 x].
    + exfalso. apply no_close_after_open in Hpost.
      rewrite contains_false in Hpost. exact (Hpost _ _ E).
    + simpl in E. injection E as -> E.
      destruct (IH _ E) as [r' ->]. exists r'. reflexivity.
Qed.

Lemma think_blocks_removed_unclosed (pre out post : str) :
  think_blocks_removed pre out ->
  contains think_close post = false ->
  think_blocks_removed (pre ++ think_open ++ post) (out ++ think_open ++ post).
Proof.
  intros H Hpost.
  induction H as [|body rest out Hmin H IH|c s out Hno H IH].
  - simpl. apply no_close_kept, no_close_after_open, Hpost.
  - replace ((think_open ++ body ++ think_close ++ rest) ++ think_open ++ post)
      with (think_open ++ body ++ think_close ++ (rest ++ think_open ++ post))
      by (rewrite <- !app_assoc; reflexivity).
    apply tbr_block; [|exact IH].
    intros a r E.
    destruct (close_before_open a (body ++ think_close ++ rest) post r Hpost) as [r' E'].
    { rewrite <- !app_assoc. exact E. }
    exact (Hmin _ _ E').
  - simpl. apply tbr_keep; [|exact IH].
    intros body rest E.
    destruct (close_before_open (think_open ++ body) (c :: s) post rest Hpost) as [r' E'].
    { rewrite <- app_assoc. exact E. }
    rewrite <- app_assoc in E'. exact (Hno _ _ E').
Qed.

Lemma lstrip_app_nonspace (a b : str) (x : Z) :
  isspace x = false -> lstrip (a ++ x :: b) = lstrip a ++ x :: b.
Proof.
  intros Hx. induction a as [|c a IH]; simpl.
  - rewrite Hx. reflexivity.
  - destruct (isspace c); [exact IH | reflexivity].
Qed.

Lemma rstrip_app_nonspace (a b : str) (x : Z) :
  isspace x = false -> rstrip (a ++ x :: b) = a ++ x :: rstrip b.
Proof.
  intros Hx. unfold rstrip.
  rewrite rev_app_distr. simpl. rewrite <- app_assoc. simpl.
  rewrite lstrip_app_nonspace by exact Hx.
  rewrite rev_app_distr. simpl. rewrite rev_involutive, <- app_assoc. reflexivity.
Qed.

Lemma strip_around_open (a b : str) :
  strip (a ++ think_open ++ b) = lstrip a ++ think_open ++ rstrip b.
Proof.
  unfold strip. rewrite think_open_eq. simpl.
  rewrite lstrip_app_nonspace by reflexivity.
  change (lstrip a ++ 60 :: 116 :: 104 :: 105 :: 110 :: 107 :: 62 :: b)
    with (lstrip a ++ [60; 116; 104; 105; 110; 107] ++ 62 :: b).
  rewrite app_assoc, rstrip_app_nonspace by reflexivity.
  rewrite <- app_assoc. reflexivity.
Qed.

Lemma nonempty_app_r (a b : str) : nonempty b = true -> nonempty (a ++ b) = true.
Proof. destruct a, b; simpl; congruence. Qed.

Lemma nonempty_false (s : str) : nonempty s = false -> s = [].
Proof. destruct s; [reflexivity | discriminate]. Qed.

(** What [_extract_response_content] returns for a first candidate whose
    [content] is a string [c]. *)
Lemma extract_response_content_of_content (response : Response) (choice : Choice)
    (rest : list Choice) (c : str) :
  choices response = choice :: rest ->
  content (message choice) = Some c ->
  _extract_response_content response =
    if contains think_open c then strip (re_sub_think c) else strip c.
Proof.
  intros Hch Hc. unfold _extract_response_content, extract_response_content_body.
  rewrite Hch, Hc. unfold _clean_thinking_content.
  destruct (nonempty c) eqn:Hne.
  - destruct (contains think_open c).
    + destruct (nonempty (strip (re_sub_think c))) eqn:E.
      * reflexivity.
      * apply nonempty_false in E. rewrite E.
        destruct (reasoning_content (message choice)) as [[|]|]; reflexivity.
    + destruct (nonempty (strip c)) eqn:E.
      * reflexivity.
      * apply nonempty_false in E. rewrite E.
        destruct (reasoning_content (message choice)) as [[|]|]; reflexivity.
  - apply nonempty_false in Hne. subst c. simpl.
    destruct (reasoning_content (message choice)) as [[|]|]; reflexivity.
Qed.


(** C9. For a text [pre ++ "<think>" ++ post] whose [post] holds no
    [</think>], the scan removes the completed blocks of [pre] only: the
    marker and the text after it stay, so the cleaned text and the reply
    extracted from such a content are [lstrip] of the cleaned [pre], the
    literal marker, and [post] without its trailing whitespace; the reply
    still contains [<think>]. *)
Theorem clean_thinking_content_unclosed (pre post : str) (reasoning : option str)
    (rest : list Choice) :
  contains think_close post = false ->
  let text := pre ++ think_open ++ post in
  let kept := lstrip (re_sub_think pre) ++ think_open ++ rstrip post in
  re_sub_think text = re_sub_think pre ++ think_open ++ post /\
  _clean_thinking_content text = kept /\
  _extract_response_content
    {| choices := {| message := {| content := Some text; reasoning_content := reasoning |} |}
                  :: rest |} = kept /\
  contains think_open kept = true.
Proof.
  intros Hpost text kept.
  assert (re_sub_think text = re_sub_think pre ++ think_open ++ post) as Hsub.
  { apply re_sub_think_unique, think_blocks_removed_unclosed; [|exact Hpost].
    apply re_sub_think_removed. }
  assert (nonempty text = true) as Hne by (apply nonempty_app_r; reflexivity).
  assert (contains think_open text = true) as Hmark
    by (apply contains_spec; exists pre, post; reflexivity).
  assert (_clean_thinking_content text = kept) as Hclean.
  { unfold _clean_thinking_content. rewrite Hne, Hsub. apply strip_around_open. }
  repeat split.
  - exact Hsub.
  - exact Hclean.
  - erewrite extract_response_content_of_content by reflexivity.
    rewrite Hmark. unfold _clean_thinking_content in Hclean. rewrite Hne in Hclean.
    exact Hclean.
  - apply contains_spec. eexists _, _. reflexivity.
Qed.

Lemma clean_thinking_content_unclosed_witness :
  contains think_close (py " half a thought ") = false /\
  _clean_thinking_content (py "<think>a</think> ok <think> half a thought ")
  = py "ok <think> half a thought".
Proof.
  split; [reflexivity|].
  exact (proj1 (proj2 (clean_thinking_content_unclosed
                         (py "<think>a</think> ok ") (py " half a thought ") None []
                         eq_refl))).
Defined.

(** ** Protocol selection *)

(** C3. [_is_dashscope_api] selects the DashScope protocol exactly when the
    lower-cased model name is one of the four sentinel names and the base url
    contains [dashscope.aliyuncs.com].  In particular [gpt-4] selects the
    OpenAI-compatible path whatever the url, [custom] selects it when the url
    does not contain the domain, and [custom] (in any letter case, as
    [Custom] shows) with a url that contains the domain selects DashScope. *)
Theorem is_dashscope_api_spec (w : Env) (settings : Settings) :
  (_is_dashscope_api w settings = true <->
   lower w (model_name settings)
     ∈ [py "custom"; py "自定义"; py "dashscope"; py "qwen-custom"] /\
   exists a b, base_url settings = a ++ py "dashscope.aliyuncs.com" ++ b) /\
  (model_name settings = py "gpt-4" -> _is_dashscope_api w settings = false) /\
  (model_name settings = py "custom" ->
   (forall a b, base_url settings <> a ++ py "dashscope.aliyuncs.com" ++ b) ->
   _is_dashscope_api w settings = false) /\
  (model_name settings = py "custom" \/ model_name settings = py "Custom" ->
   (exists a b, base_url settings = a ++ py "dashscope.aliyuncs.com" ++ b) ->
   _is_dashscope_api w settings = true).
Proof.
  unfold _is_dashscope_api, custom_model_names.
  split; [split|split; [|split]].
  - intros H. apply andb_true_iff in H as [H1 H2].
    apply bool_decide_eq_true in H1. apply contains_spec in H2. split; assumption.
  - intros [H1 H2]. apply andb_true_iff. split.
    + apply bool_decide_eq_true. exact H1.
    + apply contains_spec. exact H2.
  - intros H. rewrite H. reflexivity.
  - intros H Hurl. rewrite H. apply contains_false in Hurl. rewrite Hurl. reflexivity.
  - intros H Hurl. apply contains_spec in Hurl. rewrite Hurl.
    destruct H as [H|H]; rewrite H; reflexivity.
Qed.

(** ** Frame facts: what each operation leaves alone *)

Ltac unfold_monad :=
  unfold bind, ret, raise, lift, total, gets, modify, try_except in *.

Lemma get_client_frame (w : Env) (cookie_id : str) (st : State) :
  ai_conversations (snd (get_client w cookie_id st)) = ai_conversations st /\
  backend_calls (snd (get_client w cookie_id st)) = backend_calls st.
Proof.
  unfold get_client.
  destruct (clients st !! cookie_id); [split; reflexivity|].
  destruct (negb _ || negb _); [split; reflexivity|].
  destruct (OpenAI w _ _); split; reflexivity.
Qed.

Lemma call_dashscope_api_frame (w : Env) (settings : Settings) (messages : list Message)
    (max_tokens : Z) (temperature : Q) (st : State) :
  ai_conversations (snd (_call_dashscope_api w settings messages max_tokens temperature st))
  = ai_conversations st.
Proof.
  unfold _call_dashscope_api. unfold_monad.
  destruct (contains _ (base_url settings)); [|reflexivity]. simpl.
  destruct (requests_post w _) as [response|e]; [|reflexivity].
  destruct (negb _); [reflexivity|].
  destruct (body response); reflexivity.
Qed.

Lemma call_openai_api_frame (w : Env) (client : Client) (settings : Settings)
    (messages : list Message) (max_tokens : Z) (temperature : Q) (st : State) :
  ai_conversations (snd (_call_openai_api w client settings messages max_tokens temperature st))
  = ai_conversations st.
Proof.
  unfold _call_openai_api. unfold_monad. simpl.
  destruct (chat_completions_create w _ _); reflexivity.
Qed.

Lemma detect_intent_frame (w : Env) (message cookie_id : str) (st : State) :
  ai_conversations (snd (detect_intent w message cookie_id st)) = ai_conversations st.
Proof.
  unfold detect_intent, detect_intent_body, try_except.
  destruct (negb _ || negb _); [reflexivity|].
  unfold bind at 1. unfold lift.
  destruct (load_custom_prompts w _) as [prompts|e]; [|reflexivity].
  destruct (_is_dashscope_api w _).
  - unfold bind, ret.
    match goal with |- context [_call_dashscope_api ?a ?b ?c ?d ?e ?f] =>
      pose proof (call_dashscope_api_frame a b c d e f) as H;
      destruct (_call_dashscope_api a b c d e f) as [[t|x] st'] end; exact H.
  - unfold bind at 1. unfold total.
    pose proof (get_client_frame w cookie_id st) as [Hc _].
    destruct (get_client w cookie_id st) as [[client|] st1]; simpl in Hc; [|exact Hc].
    unfold bind, ret.
    match goal with |- context [_call_openai_api ?a ?b ?c ?d ?e ?f ?g] =>
      pose proof (call_openai_api_frame a b c d e f g) as H;
      destruct (_call_openai_api a b c d e f g) as [[t|x] st'] end;
      simpl in *; congruence.
Qed.

Lemma generate_reply_call_frame (w : Env) (settings : Settings) (cookie_id : str)
    (messages : list Message) (st : State) :
  ai_conversations (snd (generate_reply_call w settings cookie_id messages st))
  = ai_conversations st.
Proof.
  unfold generate_reply_call.
  destruct (_is_dashscope_api w _).
  - unfold bind, ret.
    match goal with |- context [_call_dashscope_api ?a ?b ?c ?d ?e ?f] =>
      pose proof (call_dashscope_api_frame a b c d e f) as H;
      destruct (_call_dashscope_api a b c d e f) as [[t|x] st'] end; exact H.
  - unfold bind at 1. unfold total.
    pose proof (get_client_frame w cookie_id st) as [Hc _].
    destruct (get_client w cookie_id st) as [[client|] st1]; simpl in Hc; [|exact Hc].
    unfold bind, ret.
    match goal with |- context [_call_openai_api ?a ?b ?c ?d ?e ?f ?g] =>
      pose proof (call_openai_api_frame a b c d e f g) as H;
      destruct (_call_openai_api a b c d e f g) as [[t|x] st'] end;
      simpl in *; congruence.
Qed.

(** The two reads depend on the table only. *)
Lemma get_bargain_count_rows (w : Env) (chat_id cookie_id : str) (st st' : State) :
  ai_conversations st' = ai_conversations st ->
  get_bargain_count w chat_id cookie_id st' = get_bargain_count w chat_id cookie_id st.
Proof. intros H. unfold get_bargain_count. rewrite H. reflexivity. Qed.

Lemma get_conversation_context_rows (w : Env) (chat_id cookie_id : str) (limit : Z)
    (st st' : State) :
  ai_conversations st' = ai_conversations st ->
  get_conversation_context w chat_id cookie_id limit st'
  = get_conversation_context w chat_id cookie_id limit st.
Proof. intros H. unfold get_conversation_context. rewrite H. reflexivity. Qed.

(** ** The reply pipeline *)

(** C4. When AI is disabled for the account, [generate_reply] returns [None]
    and leaves the whole state as it was: no turn is appended, no model is
    called, no client is created. *)
Theorem generate_reply_disabled (w : Env) (message : str) (item_info : ItemInfo)
    (chat_id cookie_id user_id item_id : str) (st : State) :
  is_ai_enabled w cookie_id = false ->
  generate_reply w message item_info chat_id cookie_id user_id item_id st = (None, st) /\
  ai_conversations (snd (generate_reply w message item_info chat_id cookie_id user_id item_id st))
  = ai_conversations st.
Proof.
  intros H. unfold generate_reply. rewrite H. split; reflexivity.
Qed.

Lemma generate_reply_disabled_witness :
  generate_reply env_disabled (py "cheaper?") demo_item (py "c1") (py "acc") (py "u1") (py "i1")
    (price_history 2)
  = (None, price_history 2).
Proof.
  exact (proj1 (generate_reply_disabled env_disabled (py "cheaper?") demo_item
                  (py "c1") (py "acc") (py "u1") (py "i1") (price_history 2) eq_refl)).
Defined.

(** [generate_reply] unfolded after the enabled check and the classification. *)
Lemma generate_reply_after_intent (w : Env) (message : str) (item_info : ItemInfo)
    (chat_id cookie_id user_id item_id : str) (st st1 : State) (intent : Intent) :
  is_ai_enabled w cookie_id = true ->
  detect_intent w message cookie_id st = (intent, st1) ->
  let settings := get_ai_reply_settings w cookie_id in
  let context := get_conversation_context w chat_id cookie_id 20 st1 in
  let bargain_count := get_bargain_count w chat_id cookie_id st1 in
  generate_reply w message item_info chat_id cookie_id user_id item_id st =
  try_except
    (if bargain_limit_reached intent bargain_count (default 3 (max_bargain_rounds settings))
     then refuse_bargain w message chat_id cookie_id user_id item_id intent
     else generate_and_save w settings intent context bargain_count message item_info
            chat_id cookie_id user_id item_id)
    None st1.
Proof.
  intros Hen Hint. simpl. unfold generate_reply. rewrite Hen. simpl.
  unfold generate_reply_body, try_except, bind at 1, total. rewrite Hint.
  unfold bind at 1, gets. unfold bind at 1. reflexivity.
Qed.

(** C5. When the generation call of [generate_reply] returns the empty text
    (the account is enabled, the cap check did not refuse, the prompts
    loaded), [generate_reply] returns [None], the table of turns is the one
    it started with (no user turn, no empty assistant turn), and the
    bargain count of the conversation is unchanged. *)
Theorem generate_reply_empty_generation (w : Env) (message : str) (item_info : ItemInfo)
    (chat_id cookie_id user_id item_id : str) (st st1 st2 : State) (intent : Intent)
    (prompts : gmap str str) :
  let settings := get_ai_reply_settings w cookie_id in
  let context := get_conversation_context w chat_id cookie_id 20 st1 in
  let bargain_count := get_bargain_count w chat_id cookie_id st1 in
  is_ai_enabled w cookie_id = true ->
  detect_intent w message cookie_id st = (intent, st1) ->
  bargain_limit_reached intent bargain_count (default 3 (max_bargain_rounds settings)) = false ->
  load_custom_prompts w settings = Ok prompts ->
  generate_reply_call w settings cookie_id
    (generate_reply_messages settings prompts intent item_info context bargain_count message)
    st1 = (Ok (Some []), st2) ->
  generate_reply w message item_info chat_id cookie_id user_id item_id st = (None, st2) /\
  ai_conversations st2 = ai_conversations st /\
  get_bargain_count w chat_id cookie_id st2 = get_bargain_count w chat_id cookie_id st.
Proof.
  intros settings context bargain_count Hen Hint Hcap Hprompts Hcall.
  assert (ai_conversations st2 = ai_conversations st) as Hrows.
  { pose proof (generate_reply_call_frame w settings cookie_id
                  (generate_reply_messages settings prompts intent item_info context
                     bargain_count message) st1) as H1.
    rewrite Hcall in H1. simpl in H1.
    pose proof (detect_intent_frame w message cookie_id st) as H2.
    rewrite Hint in H2. simpl in H2. congruence. }
  split; [|split; [exact Hrows | apply get_bargain_count_rows, Hrows]].
  rewrite (generate_reply_after_intent w message item_info chat_id cookie_id user_id item_id
             st st1 intent Hen Hint).
  fold settings context bargain_count. rewrite Hcap.
  unfold generate_and_save, try_except, bind at 1, lift. rewrite Hprompts.
  unfold bind at 1. rewrite Hcall. reflexivity.
Qed.

Lemma generate_reply_empty_generation_witness :
  fst (generate_reply env_only_reasoning (py "cheaper?") demo_item
         (py "c1") (py "acc") (py "u1") (py "i1") (price_history 2)) = None /\
  ai_conversations
    (snd (generate_reply env_only_reasoning (py "cheaper?") demo_item
            (py "c1") (py "acc") (py "u1") (py "i1") (price_history 2)))
  = ai_conversations (price_history 2).
Proof.
  edestruct (generate_reply_empty_generation env_only_reasoning (py "cheaper?") demo_item
               (py "c1") (py "acc") (py "u1") (py "i1") (price_history 2))
    as (H1 & H2 & _).
  - reflexivity.
  - vm_compute. reflexivity.
  - vm_compute. reflexivity.
  - vm_compute. reflexivity.
  - vm_compute. reflexivity.
  - rewrite H1. split; [reflexivity | exact H2].
Defined.

Lemma bargain_limit_reached_iff (intent : Intent) (r m : Z) :
  bargain_limit_reached intent r m = true <-> intent = Price /\ r >= m.
Proof.
  unfold bargain_limit_reached.
  destruct intent; simpl; try (split; [discriminate | intros [? _]; discriminate]).
  destruct (r >=? m) eqn:E.
  - apply Z.geb_le in E. split; [intros _; split; [reflexivity | lia] | reflexivity].
  - split; [discriminate|]. intros [_ H].
    assert ((r >=? m) = true) by (apply Z.geb_le; lia). congruence.
Qed.


Lemma save_conversation_rows (w : Env) (chat_id cookie_id user_id item_id role text : str)
    (intent : option str) (st : State) :
  let row := conversation_row chat_id cookie_id user_id item_id role text intent in
  ai_conversations (save_conversation w chat_id cookie_id user_id item_id role text intent st)
  = if db_raises w (InsertTurn row) (ai_conversations st) then ai_conversations st
    else ai_conversations st ++ [row].
Proof.
  unfold save_conversation. destruct (db_raises w _ _); reflexivity.
Qed.

Lemma save_user_then_assistant (w : Env) (chat_id cookie_id user_id item_id message reply : str)
    (tag : option str) (st : State) :
  let user_turn :=
    conversation_row chat_id cookie_id user_id item_id (py "user") message tag in
  let assistant_turn :=
    conversation_row chat_id cookie_id user_id item_id (py "assistant") reply tag in
  let user_stored :=
    if db_raises w (InsertTurn user_turn) (ai_conversations st) then [] else [user_turn] in
  let assistant_stored :=
    if db_raises w (InsertTurn assistant_turn) (ai_conversations st ++ user_stored) then []
    else [assistant_turn] in
  ai_conversations
    (save_conversation w chat_id cookie_id user_id item_id (py "assistant") reply tag
       (save_conversation w chat_id cookie_id user_id item_id (py "user") message tag st))
  = ai_conversations st ++ user_stored ++ assistant_stored.
Proof.
  intros user_turn assistant_turn user_stored assistant_stored.
  subst user_stored assistant_stored.
  rewrite !save_conversation_rows. cbv zeta. fold user_turn assistant_turn.
  destruct (db_raises w (InsertTurn user_turn) (ai_conversations st)).
  - rewrite !app_nil_r. cbn [app].
    destruct (db_raises w (InsertTurn assistant_turn) (ai_conversations st));
      rewrite ?app_nil_r; reflexivity.
  - destruct (db_raises w (InsertTurn assistant_turn) (ai_conversations st ++ [user_turn]));
      rewrite ?app_nil_r, ?app_assoc; reflexivity.
Qed.




(** C10, as the code has it.  When the count query raises,
    [get_bargain_count] returns 0; the cap check of [generate_reply] then
    sees round 0 whatever the table holds, so with a cap of at least 1 it
    does not refuse and [generate_reply] goes on to the generation steps. *)
Theorem get_bargain_count_read_failure (w : Env) (message : str) (item_info : ItemInfo)
    (chat_id cookie_id user_id item_id : str) (st : State) :
  db_raises w (SelectBargainCount chat_id cookie_id) (ai_conversations st) = true ->
  get_bargain_count w chat_id cookie_id st = 0 /\
  (forall intent m, 0 < m -> bargain_limit_reached intent 0 m = false) /\
  (is_ai_enabled w cookie_id = true ->
   0 < default 3 (max_bargain_rounds (get_ai_reply_settings w cookie_id)) ->
   generate_reply w message item_info chat_id cookie_id user_id item_id st =
   let '(intent, st1) := detect_intent w message cookie_id st in
   try_except
     (generate_and_save w (get_ai_reply_settings w cookie_id) intent
        (get_conversation_context w chat_id cookie_id 20 st1) 0 message item_info
        chat_id cookie_id user_id item_id)
     None st1).
Proof.
  intros Hraise.
  assert (forall intent m, 0 < m -> bargain_limit_reached intent 0 m = false) as Hcap.
  { intros intent m Hm. destruct (bargain_limit_reached intent 0 m) eqn:E; [|reflexivity].
    apply bargain_limit_reached_iff in E as [_ E]. lia. }
  split; [|split; [exact Hcap|]].
  - unfold get_bargain_count. rewrite Hraise. reflexivity.
  - intros Hen Hm.
    destruct (detect_intent w message cookie_id st) as [intent st1] eqn:Hint.
    rewrite (generate_reply_after_intent w message item_info chat_id cookie_id user_id item_id
               st st1 intent Hen Hint).
    pose proof (detect_intent_frame w message cookie_id st) as Hrows.
    rewrite Hint in Hrows. simpl in Hrows.
    assert (get_bargain_count w chat_id cookie_id st1 = 0) as ->.
    { unfold get_bargain_count. rewrite Hrows, Hraise. reflexivity. }
    rewrite (Hcap intent _ Hm). reflexivity.
Qed.

Lemma get_bargain_count_read_failure_witness :
  get_bargain_count (env_price (Some 3) count_raises) (py "c1") (py "acc") (price_history 5) = 0 /\
  fst (generate_reply (env_price (Some 3) count_raises) (py "cheaper?") demo_item
         (py "c1") (py "acc") (py "u1") (py "i1") (price_history 5)) = Some (py "ok").
Proof.
  destruct (get_bargain_count_read_failure (env_price (Some 3) count_raises) (py "cheaper?")
              demo_item (py "c1") (py "acc") (py "u1") (py "i1") (price_history 5) eq_refl)
    as (H0 & _ & Hgen).
  split; [exact H0|].
  rewrite Hgen by reflexivity. vm_compute. reflexivity.
Defined.

(** C10 as stated fails for a cap of 0: the count query raises, the count is
    taken as 0, and [0 >= 0] makes the cap check refuse. *)
Lemma read_failure_refuses_at_cap_zero :
  db_raises (env_price (Some 0) count_raises) (SelectBargainCount (py "c1") (py "acc"))
    (ai_conversations init_state) = true /\
  get_bargain_count (env_price (Some 0) count_raises) (py "c1") (py "acc") init_state = 0 /\
  bargain_limit_reached Price 0 0 = true /\
  fst (generate_reply (env_price (Some 0) count_raises) (py "cheaper?") demo_item
         (py "c1") (py "acc") (py "u1") (py "i1") init_state)
  = Some refuse_reply /\
  List.map t_content
    (ai_conversations
       (snd (generate_reply (env_price (Some 0) count_raises) (py "cheaper?") demo_item
               (py "c1") (py "acc") (py "u1") (py "i1") init_state)))
  = [py "cheaper?"; refuse_reply] /\
  List.map call_max_tokens
    (backend_calls
       (snd (generate_reply (env_price (Some 0) count_raises) (py "cheaper?") demo_item
               (py "c1") (py "acc") (py "u1") (py "i1") init_state)))
  = [1000].
Proof. repeat split; vm_compute; reflexivity. Qed.

(** ** The client cache *)

(** C7, as the code has it.  [get_client] never raises.  For an account with
    no cached client it returns [None], and leaves the state alone, when the
    account is disabled or has no credential; a client that is already
    cached is returned whatever the settings say at the time of the call. *)
Theorem get_client_spec (w : Env) (cookie_id : str) (st : State) :
  (clients st !! cookie_id = None ->
   ai_enabled (get_ai_reply_settings w cookie_id) = false \/
   api_key (get_ai_reply_settings w cookie_id) = [] ->
   get_client w cookie_id st = (None, st)) /\
  (forall client,
      clients st !! cookie_id = Some client ->
      fst (get_client w cookie_id st) = Some client).
Proof.
  unfold get_client. split.
  - intros -> [H|H]; rewrite H; simpl; [reflexivity|].
    rewrite orb_true_r. reflexivity.
  - intros client ->. reflexivity.
Qed.

Lemma get_client_spec_witness :
  get_client env_disabled (py "acc") init_state = (None, init_state).
Proof.
  apply (proj1 (get_client_spec env_disabled (py "acc") init_state)).
  - reflexivity.
  - left. reflexivity.
Defined.

(** C7 as stated fails for a cached client: the client created while the
    account was enabled is still returned once the account is disabled. *)
Lemma get_client_cached_while_disabled :
  is_ai_enabled env_disabled (py "acc") = false /\
  fst (get_client env_disabled (py "acc")
         (snd (get_client (env_price None never_raises) (py "acc") init_state)))
  = Some {| client_api_key := py "sk-demo";
            client_base_url := py "https://api.example.com/v1" |}.
Proof. split; vm_compute; reflexivity. Qed.

Lemma pop_clients_lookup (l : list str) (st : State) (c : str) :
  let st' := fold_left pop_client l st in
  (c ∈ l ->
   clients st' !! c = None /\ client_last_used st' !! c = None /\ agents st' !! c = None) /\
  (c ∉ l ->
   clients st' !! c = clients st !! c /\
   client_last_used st' !! c = client_last_used st !! c /\
   agents st' !! c = agents st !! c).
Proof.
  revert st. induction l as [|x l IH]; intros st; simpl.
  - split; [intros H; inversion H | intros _; repeat split].
  - destruct (IH (pop_client st x)) as [IHin IHout].
    destruct (decide (c ∈ l)) as [Hin|Hout].
    + split; [intros _; exact (IHin Hin)|].
      intros Hn. destruct Hn. right. exact Hin.
    + destruct (IHout Hout) as (H1 & H2 & H3). simpl in H1, H2, H3. split.
      * intros Hc. apply elem_of_cons in Hc as [->|Hc]; [|destruct (Hout Hc)].
        rewrite H1, H2, H3, !lookup_delete_eq. repeat split.
      * intros Hn. apply not_elem_of_cons in Hn as [Hne _].
        rewrite H1, H2, H3, !lookup_delete_ne by congruence. repeat split.
Qed.

Lemma is_expired_iff (w : Env) (max_idle_hours : Z) (last_used : Q) :
  is_expired w max_idle_hours last_used = true <->
  (inject_Z (max_idle_hours * 3600) < time_time w - last_used)%Q.
Proof.
  unfold is_expired. rewrite negb_true_iff.
  destruct (Qle_bool (time_time w - last_used) (inject_Z (max_idle_hours * 3600))) eqn:E.
  - apply Qle_bool_iff in E. split; [discriminate|].
    intros H. exfalso. exact (Qlt_not_le _ _ H E).
  - split; [intros _|reflexivity].
    apply Qnot_le_lt. intros H. apply Qle_bool_iff in H. congruence.
Qed.

Lemma elem_of_expired_clients (w : Env) (max_idle_hours : Z) (st : State) (c : str) :
  c ∈ expired_clients w max_idle_hours st <->
  exists last_used,
    client_last_used st !! c = Some last_used /\
    is_expired w max_idle_hours last_used = true.
Proof.
  unfold expired_clients. rewrite list_elem_of_In, in_map_iff. split.
  - intros ([c' t] & <- & H). apply filter_In in H as [H1 H2].
    apply list_elem_of_In, elem_of_map_to_list in H1. exists t. split; assumption.
  - intros (t & H1 & H2). exists (c, t). split; [reflexivity|].
    apply filter_In. split; [|exact H2].
    apply list_elem_of_In, elem_of_map_to_list. exact H1.
Qed.

(** C8. [cleanup_unused_clients] with threshold [d] hours, run at time
    [time_time w], removes a cached client last used at [T] (from all three
    dicts) exactly when [time_time w - T] exceeds [d * 3600] seconds, and
    keeps it with its timestamp otherwise; this holds for every account at
    once, so one sweep removes every expired client.  With [d = 1] a client
    is removed when the sweep runs two hours after [T] and kept when it runs
    thirty minutes after [T]. *)
Theorem cleanup_unused_clients_spec (w : Env) (d : Z) (st : State) (c : str)
    (client : Client) (T : Q) :
  clients st !! c = Some client ->
  client_last_used st !! c = Some T ->
  let st' := cleanup_unused_clients w d st in
  ((clients st' !! c = None /\ client_last_used st' !! c = None /\ agents st' !! c = None)
   <-> (inject_Z (d * 3600) < time_time w - T)%Q) /\
  (clients st' !! c = None <-> (inject_Z (d * 3600) < time_time w - T)%Q) /\
  (~ (inject_Z (d * 3600) < time_time w - T)%Q ->
   clients st' !! c = Some client /\ client_last_used st' !! c = Some T) /\
  (d = 1 -> (time_time w == T + 7200)%Q -> clients st' !! c = None) /\
  (d = 1 -> (time_time w == T + 1800)%Q -> clients st' !! c = Some client).
Proof.
  intros Hc HT st'.
  destruct (pop_clients_lookup (expired_clients w d st) st c) as [Hin Hout].
  fold (cleanup_unused_clients w d st) in Hin, Hout. fold st' in Hin, Hout.
  assert (c ∈ expired_clients w d st <-> (inject_Z (d * 3600) < time_time w - T)%Q) as Hexp.
  { rewrite elem_of_expired_clients. split.
    - intros (t & Ht & E). rewrite HT in Ht. injection Ht as <-.
      apply is_expired_iff. exact E.
    - intros H. exists T. split; [exact HT | apply is_expired_iff; exact H]. }
  assert (~ (inject_Z (d * 3600) < time_time w - T)%Q ->
          clients st' !! c = Some client /\ client_last_used st' !! c = Some T) as Hkeep.
  { intros Hn. destruct Hout as (H1 & H2 & _); [rewrite Hexp; exact Hn|].
    rewrite H1, H2. split; assumption. }
  assert (clients st' !! c = None <-> (inject_Z (d * 3600) < time_time w - T)%Q) as Hiff.
  { split.
    - intros Hnone.
      destruct (Qlt_le_dec (inject_Z (d * 3600)) (time_time w - T)) as [Hlt|Hle]; [exact Hlt|].
      destruct Hkeep as [Hk _]; [apply Qle_not_lt; exact Hle|]. congruence.
    - intros Hlt. apply Hin, Hexp, Hlt. }
  repeat split.
  - intros (H & _). apply Hiff. exact H.
  - apply Hin, Hexp. assumption.
  - apply Hin, Hexp. assumption.
  - apply Hin, Hexp. assumption.
  - apply Hiff.
  - apply Hiff.
  - apply Hkeep. assumption.
  - apply Hkeep. assumption.
  - intros -> Hnow. apply Hiff. rewrite Hnow.
    change (inject_Z (1 * 3600)) with (3600 # 1)%Q. lra.
  - intros -> Hnow. apply Hkeep. rewrite Hnow.
    change (inject_Z (1 * 3600)) with (3600 # 1)%Q. lra.
Qed.

Lemma cleanup_unused_clients_spec_witness :
  clients (cleanup_unused_clients (at_time 8200 env_disabled) 1 cached_at_1000) !! py "acc"
  = None /\
  clients (cleanup_unused_clients (at_time 2800 env_disabled) 1 cached_at_1000) !! py "acc"
  = Some {| client_api_key := py "sk-demo";
            client_base_url := py "https://api.example.com/v1" |}.
Proof.
  split.
  - refine (proj1 (proj2 (proj2 (proj2 (cleanup_unused_clients_spec
              (at_time 8200 env_disabled) 1 cached_at_1000 (py "acc") _ 1000 _ _)))) _ _).
    + vm_compute. reflexivity.
    + vm_compute. reflexivity.
    + reflexivity.
    + vm_compute. reflexivity.
  - refine (proj2 (proj2 (proj2 (proj2 (cleanup_unused_clients_spec
              (at_time 2800 env_disabled) 1 cached_at_1000 (py "acc") _ 1000 _ _)))) _ _).
    + vm_compute. reflexivity.
    + vm_compute. reflexivity.
    + reflexivity.
    + vm_compute. reflexivity.
Defined.

(** ** Intent classification *)




Example intent_of_response_examples (w : Env) :
  intent_of_response w (py " Price. ") = Price /\
  intent_of_response w (py "TECH") = Tech /\
  intent_of_response w (py "tech or price") = Price /\
  intent_of_response w (py "default") = Default /\
  intent_of_response w (py "p.rice") = Price /\
  intent_of_response w (py "I cannot tell") = Default /\
  intent_of_response w [] = Default.
Proof. repeat split; reflexivity. Qed.

(** A backend call that raises (a timeout, say) ends in [default], and the
    error does not surface. *)
Example detect_intent_backend_timeout :
  detect_intent
    (demo_env (demo_settings true None) (fun _ => Raise (LibraryError 408)) never_raises)
    (py "cheaper?") (py "acc") init_state
  = (Default,
     snd (detect_intent
            (demo_env (demo_settings true None) (fun _ => Raise (LibraryError 408))
               never_raises)
            (py "cheaper?") (py "acc") init_state)) /\
  length (backend_calls
            (snd (detect_intent
                    (demo_env (demo_settings true None) (fun _ => Raise (LibraryError 408))
                       never_raises)
                    (py "cheaper?") (py "acc") init_state))) = 1%nat.
Proof. split; vm_compute; reflexivity. Qed.

(** ** Runs of the engine on concrete collaborators *)

Ltac run_engine :=
  repeat match goal with |- _ /\ _ => split end; vm_compute; reflexivity.

Example re_sub_think_examples :
  re_sub_think (py "a<think>b
c</think>d<think>e</think>f<think>g") = py "adf<think>g" /\
  re_sub_think (py "</think>x<think>") = py "</think>x<think>" /\
  re_sub_think (py "<thi<think>x</think>nk>y</think>") = py "<think>y</think>".
Proof. run_engine. Qed.

Example dashscope_prompt_examples :
  dashscope_prompt [ {| msg_role := py "system"; msg_content := py "S" |};
                     {| msg_role := py "user"; msg_content := py "U" |} ]
  = py "S

用户问题：U

请直接回答用户的问题：" /\
  dashscope_prompt [ {| msg_role := py "user"; msg_content := py "U" |} ] = py "U" /\
  dashscope_prompt [ {| msg_role := py "system"; msg_content := py "S" |} ] = py "system: S".
Proof. run_engine. Qed.

Example user_prompt_example :
  user_prompt (demo_settings true None) demo_item
    (get_conversation_context env_dashscope (py "c1") (py "acc") 20 (price_history 2))
    2 (py "cheaper?")
  = py "商品信息：
商品标题: camera
商品价格: 300元
商品描述: 无

对话历史：
user: cheaper?
user: cheaper?

议价设置：
- 当前议价次数：2
- 最大议价轮数：3
- 最大优惠百分比：10%
- 最大优惠金额：100元

用户消息：cheaper?

请根据以上信息生成回复：".
Proof. run_engine. Qed.

(** On the DashScope protocol: the classification goes to the application's
    url with [max_tokens = 100], the answer [价格。] is read as [price], and
    the reply is generated, trimmed and persisted after the user turn. *)
Example generate_reply_dashscope_run :
  _is_dashscope_api env_dashscope dashscope_settings = true /\
  fst (detect_intent env_dashscope (py "cheaper?") (py "acc") (price_history 2)) = Price /\
  List.map
    (fun c => match c with
              | DashCall r => (dr_url r, dr_max_tokens r)
              | ChatCall _ r => ([], cr_max_tokens r)
              end)
    (backend_calls
       (snd (generate_reply env_dashscope (py "cheaper?") demo_item
               (py "c1") (py "acc") (py "u1") (py "i1") (price_history 2))))
  = [ (py "https://dashscope.aliyuncs.com/api/v1/apps/abc123/completion", 100);
      (py "https://dashscope.aliyuncs.com/api/v1/apps/abc123/completion", 2000) ] /\
  fst (generate_reply env_dashscope (py "cheaper?") demo_item
         (py "c1") (py "acc") (py "u1") (py "i1") (price_history 2))
  = Some (py "可以便宜十元") /\
  ai_conversations
    (snd (generate_reply env_dashscope (py "cheaper?") demo_item
            (py "c1") (py "acc") (py "u1") (py "i1") (price_history 2)))
  = ai_conversations (price_history 2)
    ++ [ conversation_row (py "c1") (py "acc") (py "u1") (py "i1") (py "user")
           (py "cheaper?") (Some (py "price"));
         conversation_row (py "c1") (py "acc") (py "u1") (py "i1") (py "assistant")
           (py "可以便宜十元") (Some (py "price")) ].
Proof. run_engine. Qed.

(** ** What a call of [generate_reply] can leave in the table *)

Lemma generate_reply_rows (w : Env) (message : str) (item_info : ItemInfo)
    (chat_id cookie_id user_id item_id : str) (st : State) :
  match generate_reply w message item_info chat_id cookie_id user_id item_id st with
  | (None, st') => ai_conversations st' = ai_conversations st
  | (Some reply, st') =>
    reply <> [] /\
    let tag := Some (intent_name (fst (detect_intent w message cookie_id st))) in
    let user_turn :=
      conversation_row chat_id cookie_id user_id item_id (py "user") message tag in
    let assistant_turn :=
      conversation_row chat_id cookie_id user_id item_id (py "assistant") reply tag in
    let user_stored :=
      if db_raises w (InsertTurn user_turn) (ai_conversations st) then [] else [user_turn] in
    let assistant_stored :=
      if db_raises w (InsertTurn assistant_turn) (ai_conversations st ++ user_stored) then []
      else [assistant_turn] in
    ai_conversations st' = ai_conversations st ++ user_stored ++ assistant_stored
  end.
Proof.
  destruct (is_ai_enabled w cookie_id) eqn:Hen;
    [|unfold generate_reply; rewrite Hen; reflexivity].
  destruct (detect_intent w message cookie_id st) as [intent st1] eqn:Hint.
  pose proof (detect_intent_frame w message cookie_id st) as Hrows.
  rewrite Hint in Hrows. simpl in Hrows.
  rewrite (generate_reply_after_intent w message item_info chat_id cookie_id user_id item_id
             st st1 intent Hen Hint).
  cbn [fst].
  destruct (bargain_limit_reached intent _ _).
  - unfold refuse_bargain, try_except, bind, modify, ret.
    split; [discriminate|].
    pose proof (save_user_then_assistant w chat_id cookie_id user_id item_id message
                  refuse_reply (Some (intent_name intent)) st1) as Ha.
    cbv zeta in Ha |- *. rewrite Hrows in Ha. exact Ha.
  - unfold generate_and_save, try_except, bind at 1, lift.
    destruct (load_custom_prompts w _) as [prompts|e]; [|exact Hrows].
    unfold bind at 1.
    match goal with |- context [generate_reply_call ?a ?b ?c ?d ?e] =>
      pose proof (generate_reply_call_frame a b c d e) as Hcall;
      destruct (generate_reply_call a b c d e) as [[[reply|]|x] st2] end;
      simpl in Hcall; try congruence.
    destruct (nonempty reply) eqn:Hne; simpl; [|congruence].
    unfold bind, modify, ret.
    assert (reply <> []) as Hreply by (intros ->; discriminate).
    pose proof (save_user_then_assistant w chat_id cookie_id user_id item_id message
                  reply (Some (intent_name intent)) st2) as Ha.
    cbv zeta in Ha. rewrite Hcall, Hrows in Ha.
    destruct (is_price intent); simpl; (split; [exact Hreply|]);
      unfold increment_bargain_count; exact Ha.
Qed.


(** X2. A fetch that returns a client has cached it and recorded the time of
    the fetch as its last use. *)
Theorem get_client_records_use (w : Env) (cookie_id : str) (st : State) (client : Client) :
  fst (get_client w cookie_id st) = Some client ->
  clients (snd (get_client w cookie_id st)) !! cookie_id = Some client /\
  client_last_used (snd (get_client w cookie_id st)) !! cookie_id = Some (time_time w).
Proof.
  unfold get_client.
  destruct (clients st !! cookie_id) as [cached|] eqn:Hc.
  - simpl. intros [= <-]. split; [exact Hc | apply lookup_insert_eq].
  - destruct (negb _ || negb _); [discriminate|].
    destruct (OpenAI w _ _) as [created|e]; [|discriminate].
    simpl. intros [= <-]. split; apply lookup_insert_eq.
Qed.

Lemma get_client_records_use_witness :
  client_last_used (snd (get_client (env_price None never_raises) (py "acc") init_state))
    !! py "acc" = Some 1000%Q.
Proof.
  refine (proj2 (get_client_records_use (env_price None never_raises) (py "acc") init_state
                   {| client_api_key := py "sk-demo";
                      client_base_url := py "https://api.example.com/v1" |} _)).
  vm_compute. reflexivity.
Defined.

Lemma assistant_turn_not_counted (chat_id cookie_id user_id item_id text : str)
    (tag : option str) :
  is_price_user_turn
    (conversation_row chat_id cookie_id user_id item_id (py "assistant") text tag) = false.
Proof.
  unfold is_price_user_turn. cbn [t_role conversation_row].
  replace (bool_decide (py "assistant" = py "user")) with false by (vm_compute; reflexivity).
  apply andb_false_r.
Qed.

(** X3. While the count query works, one call of [generate_reply] leaves the
    bargain count of its conversation as it was or raises it by one. *)
Theorem bargain_count_step (w : Env) (message : str) (item_info : ItemInfo)
    (chat_id cookie_id user_id item_id : str) (st : State) :
  let st' := snd (generate_reply w message item_info chat_id cookie_id user_id item_id st) in
  db_raises w (SelectBargainCount chat_id cookie_id) (ai_conversations st) = false ->
  db_raises w (SelectBargainCount chat_id cookie_id) (ai_conversations st') = false ->
  get_bargain_count w chat_id cookie_id st <= get_bargain_count w chat_id cookie_id st'
  <= get_bargain_count w chat_id cookie_id st + 1.
Proof.
  intros st' H0 H1. subst st'.
  pose proof (generate_reply_rows w message item_info chat_id cookie_id user_id item_id st)
    as Hout.
  destruct (generate_reply w message item_info chat_id cookie_id user_id item_id st)
    as [[reply|] st'].
  - destruct Hout as [_ Hrows]. cbv zeta in Hrows. simpl in H1 |- *.
    unfold get_bargain_count. rewrite H0, H1, Hrows, !List.filter_app, !length_app.
    repeat match goal with
           | |- context [if db_raises ?a ?b ?c then _ else _] => destruct (db_raises a b c)
           end; cbn [List.filter];
      rewrite ?assistant_turn_not_counted, ?andb_false_r;
      repeat match goal with
             | |- context [if ?b then _ else _] => destruct b
             end; simpl; lia.
  - simpl in H1 |- *. unfold get_bargain_count. rewrite Hout. lia.
Qed.

Lemma bargain_count_step_witness :
  get_bargain_count (env_price (Some 3) never_raises) (py "c1") (py "acc")
    (snd (generate_reply (env_price (Some 3) never_raises) (py "cheaper?") demo_item
            (py "c1") (py "acc") (py "u1") (py "i1") (price_history 2)))
  <= get_bargain_count (env_price (Some 3) never_raises) (py "c1") (py "acc") (price_history 2)
     + 1.
Proof.
  exact (proj2 (bargain_count_step (env_price (Some 3) never_raises) (py "cheaper?") demo_item
                  (py "c1") (py "acc") (py "u1") (py "i1") (price_history 2)
                  eq_refl eq_refl)).
Defined.

(** * Further properties of the engine *)

(** ** Splitting the DashScope url *)

Lemma contains_nil_false (sep : str) : sep <> [] -> contains sep [] = false.
Proof. destruct sep; [congruence | reflexivity]. Qed.

Lemma split_last_fuel_spec (sep : str) (n : nat) (s : str) :
  sep <> [] -> (length s <= n)%nat ->
  contains sep (split_last_fuel n sep s) = false /\
  (contains sep s = false -> split_last_fuel n sep s = s) /\
  (contains sep s = true -> exists a, s = a ++ sep ++ split_last_fuel n sep s).
Proof.
  intros Hsep. revert s. induction n as [|n IH]; intros s Hlen.
  - destruct s; [|simpl in Hlen; lia]. cbn [split_last_fuel].
    rewrite (contains_nil_false sep Hsep). repeat split; congruence.
  - cbn [split_last_fuel]. destruct (find_after sep s) as [r|] eqn:E.
    + pose proof (find_after_length _ _ _ E) as Hr.
      apply find_after_Some in E as (a & -> & _).
      assert (length sep > 0)%nat by (destruct sep; [congruence | simpl; lia]).
      destruct (IH r) as (H1 & H2 & H3); [rewrite !length_app in Hlen; lia|].
      split; [exact H1|]. split.
      * intros Hc. rewrite contains_false in Hc. destruct (Hc a r). reflexivity.
      * intros _. destruct (contains sep r) eqn:Er.
        -- destruct (H3 eq_refl) as [a1 Ha1]. exists (a ++ sep ++ a1).
           rewrite <- !app_assoc. rewrite <- Ha1. reflexivity.
        -- rewrite (H2 eq_refl). exists a. reflexivity.
    + apply find_after_None in E. repeat split; congruence.
Qed.

(** [s.split(sep)[-1]] holds no separator; it is [s] when [s] holds none, and
    otherwise it is what follows one occurrence of the separator in [s]. *)
Lemma split_last_spec (sep s : str) :
  sep <> [] ->
  contains sep (split_last sep s) = false /\
  (contains sep s = false -> split_last sep s = s) /\
  (contains sep s = true -> exists a, s = a ++ sep ++ split_last sep s).
Proof. intros Hsep. apply split_last_fuel_spec; [exact Hsep | reflexivity]. Qed.

(** [s.split(c)[0]] holds no [c]; it is [s], or what precedes a [c] in [s]. *)
Lemma split_first_spec (c : Z) (s : str) :
  (c ∉ split_first c s) /\
  (s = split_first c s \/ exists rest, s = split_first c s ++ c :: rest).
Proof.
  induction s as [|x t [IH1 IH2]]; simpl.
  - split; [apply not_elem_of_nil | left; reflexivity].
  - destruct (x =? c) eqn:E.
    + apply Z.eqb_eq in E as ->. split; [apply not_elem_of_nil|].
      right. exists t. reflexivity.
    + apply Z.eqb_neq in E. split.
      * apply not_elem_of_cons. split; [congruence | exact IH1].
      * destruct IH2 as [IH2|[rest IH2]].
        -- left. f_equal. exact IH2.
        -- right. exists rest. simpl. f_equal. exact IH2.
Qed.

(** X4. For every base url that contains [/apps/], the application id
    [_call_dashscope_api] extracts holds no slash, and the url reads: some
    text, [/apps/], the id, and a tail that is empty or starts with a slash
    and in which (with the id) [/apps/] does not occur again. *)
Theorem dashscope_app_id_spec (url : str) :
  contains (py "/apps/") url = true ->
  (0x2F ∉ dashscope_app_id url) /\
  exists a tail,
    url = a ++ py "/apps/" ++ dashscope_app_id url ++ tail /\
    (tail = [] \/ exists t, tail = 0x2F :: t) /\
    contains (py "/apps/") (dashscope_app_id url ++ tail) = false.
Proof.
  intros Hc. unfold dashscope_app_id.
  destruct (split_last_spec (py "/apps/") url) as (Hno & _ & Hsome); [discriminate|].
  destruct (Hsome Hc) as [a Ha].
  destruct (split_first_spec 0x2F (split_last (py "/apps/") url)) as [Hslash Hsplit].
  split; [exact Hslash|].
  destruct Hsplit as [Hall|[rest Hrest]].
  - exists a, []. rewrite app_nil_r. rewrite <- Hall. repeat split; auto.
  - exists a, (0x2F :: rest). rewrite <- Hrest. repeat split; eauto.
Qed.

Lemma dashscope_app_id_spec_witness :
  0x2F ∉ dashscope_app_id (py "https://dashscope.aliyuncs.com/api/v1/apps/abc123/completion").
Proof.
  exact (proj1 (dashscope_app_id_spec
                  (py "https://dashscope.aliyuncs.com/api/v1/apps/abc123/completion")
                  eq_refl)).
Defined.

Lemma split_first_stop (c : Z) (id tail : str) :
  c ∉ id -> tail = [] \/ (exists t, tail = c :: t) -> split_first c (id ++ tail) = id.
Proof.
  intros Hid Htail. induction id as [|x id IH]; simpl.
  - destruct Htail as [->|[t ->]]; [reflexivity|]. simpl. rewrite Z.eqb_refl. reflexivity.
  - apply not_elem_of_cons in Hid as [Hx Hid].
    destruct (x =? c) eqn:E; [apply Z.eqb_eq in E; congruence|].
    f_equal. apply IH. exact Hid.
Qed.

(** When [/apps/] does not start inside [a], its occurrence after [a] is the
    leftmost one. *)
Lemma apps_first_occurrence (a r a' r' : str) :
  contains (py "/apps/") (a ++ py "/apps") = false ->
  a ++ py "/apps/" ++ r = a' ++ py "/apps/" ++ r' ->
  (length a <= length a')%nat.
Proof.
  intros Hno E. apply app_eq_inv in E as [(k & -> & Hk)|(k & -> & _)].
  - destruct k as [|x k]; [rewrite app_nil_r; reflexivity|]. exfalso.
    assert (py "/apps/" = take 6 ((x :: k) ++ py "/apps")) as Hs.
    { transitivity (take 6 (py "/apps/" ++ r')); [reflexivity|]. rewrite Hk.
      change (py "/apps/" ++ r) with (py "/apps" ++ 0x2F :: r).
      rewrite app_assoc. apply take_app_le. rewrite length_app. simpl. lia. }
    rewrite contains_false in Hno.
    apply (Hno a' (drop 6 ((x :: k) ++ py "/apps"))).
    rewrite Hs, take_drop, <- app_assoc. reflexivity.
  - rewrite length_app. lia.
Qed.

(** X5. For a base url of the documented form, [a ++ "/apps/" ++ id ++ tail]
    where [/apps/] neither starts inside [a] nor occurs in [id ++ tail], [id]
    holds no slash and [tail] is empty or starts with a slash, the id
    extracted is [id] and the request goes to
    [https://dashscope.aliyuncs.com/api/v1/apps/id/completion]. *)
Theorem dashscope_url_documented (a id tail : str) :
  contains (py "/apps/") (a ++ py "/apps") = false ->
  contains (py "/apps/") (id ++ tail) = false ->
  0x2F ∉ id ->
  tail = [] \/ (exists t, tail = 0x2F :: t) ->
  dashscope_app_id (a ++ py "/apps/" ++ id ++ tail) = id /\
  dashscope_url (a ++ py "/apps/" ++ id ++ tail)
  = py "https://dashscope.aliyuncs.com/api/v1/apps/" ++ id ++ py "/completion".
Proof.
  intros Ha Hrest Hid Htail.
  assert (dashscope_app_id (a ++ py "/apps/" ++ id ++ tail) = id) as Hres.
  { unfold dashscope_app_id.
    assert (split_last (py "/apps/") (a ++ py "/apps/" ++ id ++ tail) = id ++ tail) as ->.
    { unfold split_last.
      assert (find_after (py "/apps/") (a ++ py "/apps/" ++ id ++ tail) = Some (id ++ tail))
        as Hfind.
      { apply find_after_first. intros a' r' E. exact (apps_first_occurrence _ _ _ _ Ha E). }
      destruct (length (a ++ py "/apps/" ++ id ++ tail)) as [|n] eqn:Hlen.
      - rewrite !length_app in Hlen. simpl in Hlen. lia.
      - cbn [split_last_fuel]. rewrite Hfind.
        destruct (split_last_fuel_spec (py "/apps/") n (id ++ tail)) as (_ & H & _).
        + discriminate.
        + rewrite !length_app in Hlen. rewrite length_app. simpl in Hlen. lia.
        + apply H. exact Hrest. }
    apply split_first_stop; assumption. }
  split; [exact Hres|]. unfold dashscope_url. rewrite Hres. reflexivity.
Qed.

Lemma dashscope_url_documented_witness :
  dashscope_url (py "https://dashscope.aliyuncs.com/api/v1/apps/abc123/completion")
  = py "https://dashscope.aliyuncs.com/api/v1/apps/abc123/completion".
Proof.
  refine (proj2 (dashscope_url_documented (py "https://dashscope.aliyuncs.com/api/v1")
                   (py "abc123") (py "/completion") eq_refl eq_refl _ _)).
  - vm_compute. intros H. repeat (apply elem_of_cons in H as [H|H]; [discriminate H|]).
    inversion H.
  - right. eexists. reflexivity.
Defined.

(** ** One request to DashScope *)

(** X6. [_call_dashscope_api] raises [ValueError] at once, without a request
    and without touching the state, when the base url has no [/apps/]
    segment.  Otherwise it makes exactly one request: to the application's
    url, with the account's credential, the merged prompt, the token cap
    asked for and a 30 second timeout; it returns a text exactly when that
    request answers with status 200 and a body holding [output.text], and the
    text returned is that text stripped. *)
Theorem call_dashscope_api_outcome (w : Env) (settings : Settings)
    (messages : list Message) (max_tokens : Z) (temperature : Q) (st : State) :
  let run := _call_dashscope_api w settings messages max_tokens temperature st in
  (contains (py "/apps/") (base_url settings) = false -> run = (Raise ValueError, st)) /\
  (contains (py "/apps/") (base_url settings) = true ->
   exists request,
     dr_url request = dashscope_url (base_url settings) /\
     dr_bearer request = api_key settings /\
     dr_prompt request = dashscope_prompt messages /\
     dr_max_tokens request = max_tokens /\
     dr_timeout request = 30 /\
     snd run = log_call st (DashCall request) /\
     (forall t,
         fst run = Ok t <->
         exists response t0,
           requests_post w request = Ok response /\
           status_code response = 200 /\
           body response = BodyText t0 /\
           t = strip t0)).
Proof.
  intros run. subst run. unfold _call_dashscope_api. split.
  - intros ->. reflexivity.
  - intros ->. cbv zeta.
    match goal with |- context [DashCall ?r] => set (request := r) end.
    assert (dr_url request = dashscope_url (base_url settings) /\
            dr_bearer request = api_key settings /\
            dr_prompt request = dashscope_prompt messages /\
            dr_max_tokens request = max_tokens /\
            dr_timeout request = 30) as (H1 & H2 & H3 & H4 & H5)
      by (unfold dashscope_url, dashscope_app_id;
          split; [reflexivity|split; [reflexivity|split; [reflexivity|split; reflexivity]]]).
    clearbody request. exists request.
    do 5 (split; [assumption|]).
    unfold bind, modify, lift, ret, raise. cbn [fst snd].
    destruct (requests_post w request) as [response|e].
    + destruct (status_code response =? 200) eqn:Hs; cbn [negb].
      * apply Z.eqb_eq in Hs.
        destruct (body response) as [| | |t0] eqn:Hb; cbn [fst snd];
          (split; [reflexivity|]); intros t; (split; [|intros (r' & t1 & Hp & _ & Hb' & Ht)]);
          try discriminate; try (injection Hp as <-; congruence).
        intros [= <-]. exists response, t0. repeat split; assumption.
      * apply Z.eqb_neq in Hs. cbn [fst snd]. split; [reflexivity|].
        intros t. split; [discriminate|].
        intros (r' & t0 & Hp & Hs' & _). injection Hp as <-. congruence.
    + cbn [fst snd]. split; [reflexivity|]. intros t. split; [discriminate|].
      intros (r' & t0 & Hp & _). discriminate.
Qed.

(** ** Effects of the operations on the cache and on the call record *)

Lemma cache_step_refl (cookie_id : str) (st : State) : cache_step cookie_id 0 st st.
Proof.
  unfold cache_step. split; [reflexivity|]. split.
  - exists []. rewrite app_nil_r. split; [reflexivity | simpl; lia].
  - split; [intros; split; reflexivity | intros H; exact H].
Qed.

Lemma cache_step_trans (cookie_id : str) (n m : nat) (st st1 st2 : State) :
  cache_step cookie_id n st st1 -> cache_step cookie_id m st1 st2 ->
  cache_step cookie_id (n + m) st st2.
Proof.
  intros (Ha & (c1 & Hc1 & Hl1) & Ho & Hk) (Ha' & (c2 & Hc2 & Hl2) & Ho' & Hk').
  unfold cache_step. split; [congruence|]. split.
  - exists (c1 ++ c2). rewrite Hc2, Hc1, <- app_assoc, length_app. split; [reflexivity | lia].
  - split.
    + intros c Hne. destruct (Ho c Hne) as [H1 H2]. destruct (Ho' c Hne) as [H3 H4].
      split; congruence.
    + intros H. apply Hk', Hk, H.
Qed.

Lemma cache_step_weaken (cookie_id : str) (n m : nat) (st st' : State) :
  (n <= m)%nat -> cache_step cookie_id n st st' -> cache_step cookie_id m st st'.
Proof.
  intros Hnm (Ha & (c & Hc & Hl) & Ho & Hk). unfold cache_step.
  split; [exact Ha|]. split; [exists c; split; [exact Hc | lia]|]. split; assumption.
Qed.

Lemma cache_step_log_call (cookie_id : str) (st : State) (c : BackendCall) :
  cache_step cookie_id 1 st (log_call st c).
Proof.
  unfold cache_step. split; [reflexivity|]. split.
  - exists [c]. split; [reflexivity | simpl; lia].
  - split; [intros; split; reflexivity | intros H; exact H].
Qed.

Lemma cache_step_set_conversations (cookie_id : str) (st : State) (rows : list Turn) :
  cache_step cookie_id 0 st (set_conversations st rows).
Proof.
  unfold cache_step. split; [reflexivity|]. split.
  - exists []. simpl. rewrite app_nil_r. split; [reflexivity | lia].
  - split; [intros; split; reflexivity | intros H; exact H].
Qed.

Lemma get_client_step (w : Env) (cookie_id : str) (st : State) :
  cache_step cookie_id 0 st (snd (get_client w cookie_id st)).
Proof.
  assert (forall cs, (forall c, is_Some (cs !! c) -> c = cookie_id \/ is_Some (clients st !! c)) ->
                     (forall c, c <> cookie_id -> cs !! c = clients st !! c) ->
            cache_step cookie_id 0 st
              (set_cache st cs (agents st)
                 (<[cookie_id := time_time w]> (client_last_used st)))) as Hset.
  { intros cs Hcs Hother. unfold cache_step. simpl. split; [reflexivity|]. split.
    - exists []. rewrite app_nil_r. split; [reflexivity | simpl; lia].
    - split.
      + intros c Hne. split; [apply Hother, Hne|]. apply lookup_insert_ne. congruence.
      + intros Hk c Hc. simpl in *. destruct (decide (c = cookie_id)) as [->|Hne].
        * rewrite lookup_insert_eq. eauto.
        * rewrite lookup_insert_ne by congruence. apply Hk.
          destruct (Hcs c Hc) as [?|?]; [congruence | assumption]. }
  unfold get_client.
  destruct (clients st !! cookie_id) as [client|] eqn:Hc; cbn [snd].
  - apply Hset; [intros c H; right; exact H | reflexivity].
  - destruct (negb _ || negb _); cbn [snd]; [apply cache_step_refl|].
    destruct (OpenAI w _ _) as [client|e]; cbn [snd]; [|apply cache_step_refl].
    apply Hset.
    + intros c H. destruct (decide (c = cookie_id)) as [->|Hne]; [left; reflexivity|].
      right. rewrite lookup_insert_ne in H by congruence. exact H.
    + intros c Hne. apply lookup_insert_ne. congruence.
Qed.

Lemma call_dashscope_api_state (w : Env) (settings : Settings) (messages : list Message)
    (max_tokens : Z) (temperature : Q) (st : State) :
  snd (_call_dashscope_api w settings messages max_tokens temperature st) = st \/
  exists c, snd (_call_dashscope_api w settings messages max_tokens temperature st)
            = log_call st c.
Proof.
  unfold _call_dashscope_api.
  destruct (contains _ (base_url settings)); [|left; reflexivity].
  right. cbv zeta. unfold bind, modify, lift, ret, raise.
  match goal with |- context [DashCall ?r] => exists (DashCall r); generalize r end.
  intros request.
  destruct (requests_post w request) as [response|e]; [|reflexivity].
  destruct (negb _); [reflexivity|]. destruct (body response); reflexivity.
Qed.

Lemma call_openai_api_state (w : Env) (client : Client) (settings : Settings)
    (messages : list Message) (max_tokens : Z) (temperature : Q) (st : State) :
  exists c, snd (_call_openai_api w client settings messages max_tokens temperature st)
            = log_call st c.
Proof.
  unfold _call_openai_api. cbv zeta. unfold bind, modify, lift, ret.
  match goal with |- context [ChatCall client ?r] => exists (ChatCall client r); generalize r end.
  intros request.
  destruct (chat_completions_create w client request); reflexivity.
Qed.

Lemma call_dashscope_api_step (w : Env) (cookie_id : str) (settings : Settings)
    (messages : list Message) (max_tokens : Z) (temperature : Q) (st : State) :
  cache_step cookie_id 1 st
    (snd (_call_dashscope_api w settings messages max_tokens temperature st)).
Proof.
  destruct (call_dashscope_api_state w settings messages max_tokens temperature st)
    as [->|[c ->]].
  - apply (cache_step_weaken _ 0); [lia | apply cache_step_refl].
  - apply cache_step_log_call.
Qed.

Lemma call_openai_api_step (w : Env) (cookie_id : str) (client : Client)
    (settings : Settings) (messages : list Message) (max_tokens : Z) (temperature : Q)
    (st : State) :
  cache_step cookie_id 1 st
    (snd (_call_openai_api w client settings messages max_tokens temperature st)).
Proof.
  destruct (call_openai_api_state w client settings messages max_tokens temperature st)
    as [c ->].
  apply cache_step_log_call.
Qed.

Lemma detect_intent_step (w : Env) (message cookie_id : str) (st : State) :
  cache_step cookie_id 1 st (snd (detect_intent w message cookie_id st)).
Proof.
  pose proof (cache_step_weaken cookie_id 0 1 st st (Nat.le_0_l 1) (cache_step_refl _ _))
    as Hsame.
  unfold detect_intent, detect_intent_body, try_except.
  destruct (negb _ || negb _); [exact Hsame|].
  unfold bind at 1. unfold lift.
  destruct (load_custom_prompts w _) as [prompts|e]; [|exact Hsame].
  destruct (_is_dashscope_api w _).
  - unfold bind, ret.
    match goal with |- context [_call_dashscope_api ?a ?b ?c ?d ?e ?f] =>
      pose proof (call_dashscope_api_step a cookie_id b c d e f) as H;
      destruct (_call_dashscope_api a b c d e f) as [[t|x] st'] end; exact H.
  - unfold bind at 1. unfold total.
    pose proof (get_client_step w cookie_id st) as Hc.
    destruct (get_client w cookie_id st) as [[client|] st1]; cbn [snd] in Hc |- *.
    + unfold bind, ret.
      match goal with |- context [_call_openai_api ?a ?b ?c ?d ?e ?f ?g] =>
        pose proof (call_openai_api_step a cookie_id b c d e f g) as H;
        destruct (_call_openai_api a b c d e f g) as [[t|x] st'] end;
        cbn [snd] in H |- *; exact (cache_step_trans _ 0 1 _ _ _ Hc H).
    + exact (cache_step_weaken _ 0 1 _ _ (Nat.le_0_l 1) Hc).
Qed.

Lemma generate_reply_call_step (w : Env) (settings : Settings) (cookie_id : str)
    (messages : list Message) (st : State) :
  cache_step cookie_id 1 st (snd (generate_reply_call w settings cookie_id messages st)).
Proof.
  unfold generate_reply_call.
  destruct (_is_dashscope_api w _).
  - unfold bind, ret.
    match goal with |- context [_call_dashscope_api ?a ?b ?c ?d ?e ?f] =>
      pose proof (call_dashscope_api_step a cookie_id b c d e f) as H;
      destruct (_call_dashscope_api a b c d e f) as [[t|x] st'] end; exact H.
  - unfold bind at 1. unfold total.
    pose proof (get_client_step w cookie_id st) as Hc.
    destruct (get_client w cookie_id st) as [[client|] st1]; cbn [snd] in Hc |- *.
    + unfold bind, ret.
      match goal with |- context [_call_openai_api ?a ?b ?c ?d ?e ?f ?g] =>
        pose proof (call_openai_api_step a cookie_id b c d e f g) as H;
        destruct (_call_openai_api a b c d e f g) as [[t|x] st'] end;
        cbn [snd] in H |- *; exact (cache_step_trans _ 0 1 _ _ _ Hc H).
    + exact (cache_step_weaken _ 0 1 _ _ (Nat.le_0_l 1) Hc).
Qed.

Lemma save_conversation_step (w : Env) (cookie chat_id cookie_id user_id item_id role text : str)
    (intent : option str) (st : State) :
  cache_step cookie 0 st
    (save_conversation w chat_id cookie_id user_id item_id role text intent st).
Proof.
  unfold save_conversation. cbv zeta.
  destruct (db_raises w _ _); [apply cache_step_refl | apply cache_step_set_conversations].
Qed.

Lemma generate_reply_step (w : Env) (message : str) (item_info : ItemInfo)
    (chat_id cookie_id user_id item_id : str) (st : State) :
  cache_step cookie_id 2 st
    (snd (generate_reply w message item_info chat_id cookie_id user_id item_id st)).
Proof.
  destruct (is_ai_enabled w cookie_id) eqn:Hen.
  2:{ unfold generate_reply. rewrite Hen. cbn [negb snd].
      apply (cache_step_weaken _ 0); [lia | apply cache_step_refl]. }
  destruct (detect_intent w message cookie_id st) as [intent st1] eqn:Hint.
  pose proof (detect_intent_step w message cookie_id st) as H1.
  rewrite Hint in H1. cbn [snd] in H1.
  rewrite (generate_reply_after_intent w message item_info chat_id cookie_id user_id item_id
             st st1 intent Hen Hint).
  assert (forall st2 reply,
             cache_step cookie_id 0 st2
               (save_conversation w chat_id cookie_id user_id item_id (py "assistant") reply
                  (Some (intent_name intent))
                  (save_conversation w chat_id cookie_id user_id item_id (py "user") message
                     (Some (intent_name intent)) st2))) as Hsaves.
  { intros st2 reply.
    exact (cache_step_trans _ 0 0 _ _ _
             (save_conversation_step w cookie_id chat_id cookie_id user_id item_id (py "user")
                message (Some (intent_name intent)) st2)
             (save_conversation_step w cookie_id chat_id cookie_id user_id item_id
                (py "assistant") reply (Some (intent_name intent)) _)). }
  destruct (bargain_limit_reached intent _ _).
  - unfold refuse_bargain, try_except, bind, modify, ret. cbn [snd].
    exact (cache_step_weaken _ 1 2 _ _ (le_S _ _ (le_n 1))
             (cache_step_trans _ 1 0 _ _ _ H1 (Hsaves st1 refuse_reply))).
  - assert (cache_step cookie_id 2 st st1) as H1'
      by (apply (cache_step_weaken _ 1); [lia | exact H1]).
    unfold generate_and_save, try_except, bind at 1, lift.
    destruct (load_custom_prompts w _) as [prompts|e]; [|exact H1'].
    unfold bind at 1.
    match goal with |- context [generate_reply_call ?a ?b ?c ?d ?e] =>
      pose proof (generate_reply_call_step a b c d e) as H2;
      destruct (generate_reply_call a b c d e) as [[[reply|]|x] st2] end;
      cbn [snd] in H2 |- *;
      pose proof (cache_step_trans _ 1 1 _ _ _ H1 H2) as H12; try exact H12.
    destruct (nonempty reply); cbn [negb]; [|exact H12].
    unfold bind, modify, ret.
    destruct (is_price intent); cbn [snd]; unfold increment_bargain_count;
      exact (cache_step_trans _ 2 0 _ _ _ H12 (Hsaves st2 reply)).
Qed.

(** X7. Whatever the collaborators do, [detect_intent] writes no turn, makes
    at most one backend call, leaves the agents alone and touches the cache
    entries of no account but the one it classifies for. *)
Theorem detect_intent_effects (w : Env) (message cookie_id : str) (st : State) :
  let st' := snd (detect_intent w message cookie_id st) in
  ai_conversations st' = ai_conversations st /\
  agents st' = agents st /\
  (exists calls, backend_calls st' = backend_calls st ++ calls /\ (length calls <= 1)%nat) /\
  (forall c, c <> cookie_id ->
             clients st' !! c = clients st !! c /\
             client_last_used st' !! c = client_last_used st !! c).
Proof.
  intros st'. subst st'.
  destruct (detect_intent_step w message cookie_id st) as (Ha & Hc & Ho & _).
  split; [apply detect_intent_frame|]. split; [exact Ha|]. split; [exact Hc | exact Ho].
Qed.

(** X8. Whatever the collaborators do, one call of [generate_reply] makes at
    most two backend calls (the classification and the generation), leaves
    the agents alone and touches the cache entries of no account but its
    own. *)
Theorem generate_reply_effects (w : Env) (message : str) (item_info : ItemInfo)
    (chat_id cookie_id user_id item_id : str) (st : State) :
  let st' := snd (generate_reply w message item_info chat_id cookie_id user_id item_id st) in
  agents st' = agents st /\
  (exists calls, backend_calls st' = backend_calls st ++ calls /\ (length calls <= 2)%nat) /\
  (forall c, c <> cookie_id ->
             clients st' !! c = clients st !! c /\
             client_last_used st' !! c = client_last_used st !! c).
Proof.
  intros st'. subst st'.
  destruct (generate_reply_step w message item_info chat_id cookie_id user_id item_id st)
    as (Ha & Hc & Ho & _).
  split; [exact Ha|]. split; [exact Hc | exact Ho].
Qed.

Lemma in_conversation_other (chat' cookie' chat_id cookie_id user_id item_id role text : str)
    (tag : option str) :
  chat' <> chat_id \/ cookie' <> cookie_id ->
  in_conversation chat' cookie'
    (conversation_row chat_id cookie_id user_id item_id role text tag) = false.
Proof.
  intros H. unfold in_conversation. cbn [t_chat_id t_cookie_id conversation_row].
  apply andb_false_iff. destruct H as [H|H]; [left|right];
    apply bool_decide_eq_false; congruence.
Qed.

(** X9. One call of [generate_reply] for a conversation leaves the rows of
    every other conversation (another chat, or another account) as they
    were; the bargain count and the context of such a conversation are
    unchanged whenever its query raises after the call exactly if it raised
    before. *)
Theorem generate_reply_other_conversations (w : Env) (message : str) (item_info : ItemInfo)
    (chat_id cookie_id user_id item_id : str) (st : State) (chat' cookie' : str) :
  chat' <> chat_id \/ cookie' <> cookie_id ->
  let st' := snd (generate_reply w message item_info chat_id cookie_id user_id item_id st) in
  List.filter (in_conversation chat' cookie') (ai_conversations st')
  = List.filter (in_conversation chat' cookie') (ai_conversations st) /\
  (db_raises w (SelectBargainCount chat' cookie') (ai_conversations st)
   = db_raises w (SelectBargainCount chat' cookie') (ai_conversations st') ->
   get_bargain_count w chat' cookie' st' = get_bargain_count w chat' cookie' st) /\
  (forall limit,
      db_raises w (SelectContext chat' cookie' limit) (ai_conversations st)
      = db_raises w (SelectContext chat' cookie' limit) (ai_conversations st') ->
      get_conversation_context w chat' cookie' limit st'
      = get_conversation_context w chat' cookie' limit st).
Proof.
  intros Hother st'. subst st'.
  pose proof (generate_reply_rows w message item_info chat_id cookie_id user_id item_id st)
    as Hrows.
  destruct (generate_reply w message item_info chat_id cookie_id user_id item_id st)
    as [r st']. cbn [snd].
  assert (forall f : Turn -> bool,
             (forall t, f t = true -> in_conversation chat' cookie' t = true) ->
             List.filter f (ai_conversations st') = List.filter f (ai_conversations st))
    as Hfilter.
  { intros f Hf. destruct r as [reply|]; [|rewrite Hrows; reflexivity].
    destruct Hrows as [_ Hr]. cbv zeta in Hr.
    assert (forall role text tag,
               f (conversation_row chat_id cookie_id user_id item_id role text tag) = false)
      as Hrow.
    { intros role text tag.
      destruct (f (conversation_row chat_id cookie_id user_id item_id role text tag)) eqn:E;
        [|reflexivity].
      apply Hf in E. rewrite in_conversation_other in E by exact Hother. discriminate. }
    rewrite Hr, !List.filter_app.
    repeat match goal with
           | |- context [if db_raises ?a ?b ?c then _ else _] => destruct (db_raises a b c)
           end; cbn [List.filter]; rewrite ?Hrow, ?app_nil_r; reflexivity. }
  split; [apply Hfilter; intros t H; exact H|]. split.
  - intros Hq. unfold get_bargain_count. rewrite <- Hq.
    destruct (db_raises w _ (ai_conversations st)); [reflexivity|].
    rewrite Hfilter; [reflexivity|].
    intros t H. apply andb_true_iff in H as [H _]. exact H.
  - intros limit Hq. unfold get_conversation_context. cbv zeta. rewrite <- Hq.
    destruct (db_raises w _ (ai_conversations st)); [reflexivity|].
    rewrite Hfilter; [reflexivity|]. intros t H. exact H.
Qed.

Lemma generate_reply_other_conversations_witness :
  List.filter (in_conversation (py "c2") (py "acc"))
    (ai_conversations
       (snd (generate_reply (env_price (Some 3) never_raises) (py "cheaper?") demo_item
               (py "c1") (py "acc") (py "u1") (py "i1") (price_history 2))))
  = List.filter (in_conversation (py "c2") (py "acc")) (ai_conversations (price_history 2)).
Proof.
  refine (proj1 (generate_reply_other_conversations (env_price (Some 3) never_raises)
                   (py "cheaper?") demo_item (py "c1") (py "acc") (py "u1") (py "i1")
                   (price_history 2) (py "c2") (py "acc") _)).
  left. vm_compute. discriminate.
Defined.

(** ** The conversation store *)

Lemma last_n_length {A} (n : nat) (l : list A) : (length (last_n n l) <= n)%nat.
Proof. unfold last_n. rewrite length_drop. lia. Qed.

Lemma last_n_suffix {A} (n : nat) (l : list A) : last_n n l `suffix_of` l.
Proof. unfold last_n. apply suffix_drop. Qed.

Lemma last_n_app {A} (n : nat) (l k : list A) :
  (length k <= n)%nat -> last_n n (l ++ k) = last_n (n - length k) l ++ k.
Proof.
  intros H. unfold last_n. rewrite length_app.
  replace (length l + length k - n)%nat with (length l - (n - length k))%nat by lia.
  apply drop_app_le. lia.
Qed.

Lemma sql_limit_sublist {A} (limit : Z) (rows : list A) :
  sql_limit limit rows `sublist_of` rows.
Proof.
  unfold sql_limit. destruct (limit <? 0); [reflexivity|]. apply sublist_take.
Qed.

Lemma sql_limit_length {A} (limit : Z) (rows : list A) :
  0 <= limit -> length (sql_limit limit rows) = Nat.min (Z.to_nat limit) (length rows).
Proof.
  intros H. unfold sql_limit.
  destruct (limit <? 0) eqn:E; [apply Z.ltb_lt in E; lia|]. apply length_take.
Qed.

Lemma map_submseteq {A B} (f : A -> B) (l k : list A) :
  l ⊆+ k -> List.map f l ⊆+ List.map f k.
Proof.
  induction 1 as [|x l k _ IH|x y l|x l k _ IH|l k m _ IH1 _ IH2]; simpl.
  - constructor.
  - apply submseteq_skip. exact IH.
  - apply submseteq_swap.
  - apply submseteq_cons. exact IH.
  - etransitivity; eassumption.
Qed.

Lemma rev_take_rev {A} (n : nat) (l : list A) : rev (take n (rev l)) = last_n n l.
Proof. unfold last_n. rewrite List.firstn_rev, List.rev_involutive. reflexivity. Qed.

Lemma get_conversation_context_eq (w : Env) (chat_id cookie_id : str) (limit : Z)
    (st : State) :
  db_raises w (SelectContext chat_id cookie_id limit) (ai_conversations st) = false ->
  get_conversation_context w chat_id cookie_id limit st
  = List.map message_of_turn
      (rev (sql_limit limit
              (order_by_created_at_desc w limit (conversation_rows chat_id cookie_id st)))).
Proof.
  intros H. unfold get_conversation_context, conversation_rows. rewrite H. reflexivity.
Qed.

Lemma get_conversation_context_newest_first (w : Env) (chat_id cookie_id : str) (limit : Z)
    (st : State) :
  db_raises w (SelectContext chat_id cookie_id limit) (ai_conversations st) = false ->
  newest_first w chat_id cookie_id limit st ->
  get_conversation_context w chat_id cookie_id limit st
  = if limit <? 0 then conversation_messages chat_id cookie_id st
    else last_n (Z.to_nat limit) (conversation_messages chat_id cookie_id st).
Proof.
  intros H Hnew. rewrite (get_conversation_context_eq w chat_id cookie_id limit st H).
  unfold newest_first in Hnew. rewrite Hnew. unfold sql_limit, conversation_messages.
  destruct (limit <? 0).
  - rewrite List.rev_involutive. reflexivity.
  - rewrite rev_take_rev. unfold last_n. rewrite length_map. unfold drop.
    symmetry. apply skipn_map.
Qed.

(** X10. [get_conversation_context] returns no message when the query raises,
    and at most [limit] of them when [limit] is not negative.  If the store
    returns the rows it selected, the messages read are messages of the
    conversation asked for, none more often than the conversation holds it:
    [limit] of them (all when there are fewer) for a [limit] that is not
    negative, and all of them for a negative one.  Their order is the
    store's: when the store returns the rows of the conversation newest
    first, the context is the closing segment of the conversation's
    messages, oldest first. *)
Theorem get_conversation_context_spec (w : Env) (chat_id cookie_id : str) (limit : Z)
    (st : State) :
  let context := get_conversation_context w chat_id cookie_id limit st in
  let raises := db_raises w (SelectContext chat_id cookie_id limit) (ai_conversations st) in
  let messages := conversation_messages chat_id cookie_id st in
  (raises = true -> context = []) /\
  (0 <= limit -> (length context <= Z.to_nat limit)%nat) /\
  (store_returns_selected w ->
   context ⊆+ messages /\
   (raises = false -> 0 <= limit ->
    length context = Nat.min (Z.to_nat limit) (length messages)) /\
   (raises = false -> limit < 0 -> context ≡ₚ messages)) /\
  (newest_first w chat_id cookie_id limit st ->
   context `suffix_of` messages /\
   (raises = false -> 0 <= limit -> context = last_n (Z.to_nat limit) messages) /\
   (raises = false -> limit < 0 -> context = messages)).
Proof.
  intros context raises messages. subst context raises messages.
  destruct (db_raises w (SelectContext chat_id cookie_id limit) (ai_conversations st)) eqn:E.
  - assert (get_conversation_context w chat_id cookie_id limit st = []) as ->
      by (unfold get_conversation_context; rewrite E; reflexivity).
    split; [reflexivity|]. split; [intros _; simpl; lia|]. split.
    + intros _. split; [apply submseteq_nil_l|]. split; discriminate.
    + intros _. split; [apply suffix_nil|]. split; discriminate.
  - split; [discriminate|]. split; [|split].
    + intros Hl. rewrite (get_conversation_context_eq w chat_id cookie_id limit st E).
      rewrite length_map, length_rev, sql_limit_length by exact Hl. lia.
    + intros Hstore.
      pose proof (Hstore limit (conversation_rows chat_id cookie_id st)) as Hperm.
      rewrite (get_conversation_context_eq w chat_id cookie_id limit st E).
      unfold conversation_messages. split; [|split].
      * apply map_submseteq. rewrite <- Hperm at 2.
        etransitivity; [|apply sublist_submseteq, (sql_limit_sublist limit)].
        apply Permutation_submseteq. symmetry. apply Permutation_rev.
      * intros _ Hl. rewrite !length_map, length_rev, sql_limit_length by exact Hl.
        rewrite (Permutation_length Hperm). reflexivity.
      * intros _ Hl. apply Permutation_map. unfold sql_limit.
        destruct (limit <? 0) eqn:El; [|apply Z.ltb_ge in El; lia].
        rewrite <- Hperm at 2. symmetry. apply Permutation_rev.
    + intros Hnew.
      rewrite (get_conversation_context_newest_first w chat_id cookie_id limit st E Hnew).
      destruct (limit <? 0) eqn:El.
      * apply Z.ltb_lt in El. split; [reflexivity|]. split; [intros; lia | reflexivity].
      * apply Z.ltb_ge in El. split; [apply last_n_suffix|]. split; [reflexivity | intros; lia].
Qed.

Lemma get_conversation_context_spec_witness :
  get_conversation_context (env_price None never_raises) (py "c1") (py "acc") 2
    (price_history 3)
  = last_n 2 (conversation_messages (py "c1") (py "acc") (price_history 3)).
Proof.
  refine (proj1 (proj2 (proj2 (proj2 (proj2
            (get_conversation_context_spec (env_price None never_raises) (py "c1") (py "acc")
               2 (price_history 3)))) _)) _ _).
  - reflexivity.
  - reflexivity.
  - lia.
Defined.

(** The order of a context is the store's: where all four rows of a
    conversation carry the same stamp and the store returns them in the order
    of insertion, a read of three messages leaves out the newest one and
    gives the others newest first. *)
Lemma get_conversation_context_same_stamp :
  let row := conversation_row (py "c1") (py "acc") (py "u1") (py "i1") in
  get_conversation_context (same_stamp (env_price None never_raises)) (py "c1") (py "acc") 3
    (set_conversations init_state
       [ row (py "user") (py "q1") None; row (py "assistant") (py "a1") None;
         row (py "user") (py "q2") None; row (py "assistant") (py "a2") None ])
  = [ {| msg_role := py "user"; msg_content := py "q2" |};
      {| msg_role := py "assistant"; msg_content := py "a1" |};
      {| msg_role := py "user"; msg_content := py "q1" |} ].
Proof. vm_compute. reflexivity. Qed.

Lemma in_conversation_own (chat_id cookie_id user_id item_id role text : str)
    (tag : option str) :
  in_conversation chat_id cookie_id
    (conversation_row chat_id cookie_id user_id item_id role text tag) = true.
Proof.
  unfold in_conversation. cbn [t_chat_id t_cookie_id conversation_row].
  rewrite !bool_decide_eq_true_2 by reflexivity. reflexivity.
Qed.

Lemma user_turn_counted (chat_id cookie_id user_id item_id text : str) (tag : option str) :
  is_price_user_turn (conversation_row chat_id cookie_id user_id item_id (py "user") text tag)
  = bool_decide (tag = Some (py "price")).
Proof.
  unfold is_price_user_turn. cbn [t_role t_intent conversation_row].
  rewrite (bool_decide_eq_true_2 (py "user" = py "user")) by reflexivity.
  apply andb_true_r.
Qed.

(** X11. Round trip through the store: when neither insert raises, saving a
    user turn and then an assistant turn appends exactly these two rows, and
    the conversation's messages grow by the two messages, role and content as
    saved, in the order of insertion.  A context read that does not raise,
    from a store that returns the rows it selected, holds the two messages
    and the earlier ones when its limit is negative or covers the
    conversation; a read with a limit of at least 2 ends with the two
    messages, user first, when the store returns the rows newest first.
    While the count query works, the bargain count grows by one exactly when
    the tag is [price]. *)
Theorem save_conversation_round_trip (w : Env) (chat_id cookie_id user_id item_id : str)
    (message reply : str) (tag : option str) (st : State) :
  let user_turn :=
    conversation_row chat_id cookie_id user_id item_id (py "user") message tag in
  let assistant_turn :=
    conversation_row chat_id cookie_id user_id item_id (py "assistant") reply tag in
  let st' :=
    save_conversation w chat_id cookie_id user_id item_id (py "assistant") reply tag
      (save_conversation w chat_id cookie_id user_id item_id (py "user") message tag st) in
  let saved :=
    [ {| msg_role := py "user"; msg_content := message |};
      {| msg_role := py "assistant"; msg_content := reply |} ] in
  db_raises w (InsertTurn user_turn) (ai_conversations st) = false ->
  db_raises w (InsertTurn assistant_turn) (ai_conversations st ++ [user_turn]) = false ->
  ai_conversations st' = ai_conversations st ++ [user_turn; assistant_turn] /\
  conversation_messages chat_id cookie_id st'
  = conversation_messages chat_id cookie_id st ++ saved /\
  (forall limit,
      db_raises w (SelectContext chat_id cookie_id limit) (ai_conversations st') = false ->
      (store_returns_selected w ->
       limit < 0 \/ Z.of_nat (length (conversation_messages chat_id cookie_id st')) <= limit ->
       get_conversation_context w chat_id cookie_id limit st'
       ≡ₚ conversation_messages chat_id cookie_id st ++ saved) /\
      (newest_first w chat_id cookie_id limit st' ->
       2 <= limit ->
       exists older,
         get_conversation_context w chat_id cookie_id limit st' = older ++ saved)) /\
  (db_raises w (SelectBargainCount chat_id cookie_id) (ai_conversations st) = false ->
   db_raises w (SelectBargainCount chat_id cookie_id) (ai_conversations st') = false ->
   get_bargain_count w chat_id cookie_id st'
   = get_bargain_count w chat_id cookie_id st
     + (if bool_decide (tag = Some (py "price")) then 1 else 0)).
Proof.
  intros user_turn assistant_turn st' saved H1 H2.
  assert (ai_conversations st' = ai_conversations st ++ [user_turn; assistant_turn]) as Hrows.
  { subst st'. rewrite !save_conversation_rows. cbv zeta. fold user_turn assistant_turn.
    rewrite H1, H2, <- app_assoc. reflexivity. }
  assert (conversation_messages chat_id cookie_id st'
          = conversation_messages chat_id cookie_id st ++ saved) as Hmsgs.
  { unfold conversation_messages, conversation_rows.
    rewrite Hrows, List.filter_app. cbn [List.filter].
    subst user_turn assistant_turn. rewrite !in_conversation_own.
    rewrite List.map_app. reflexivity. }
  split; [exact Hrows|]. split; [exact Hmsgs|]. split.
  - intros limit Hq. split.
    + intros Hstore Hl. rewrite <- Hmsgs.
      rewrite (get_conversation_context_eq w chat_id cookie_id limit st' Hq).
      pose proof (Hstore limit (conversation_rows chat_id cookie_id st')) as Hperm.
      unfold conversation_messages. apply Permutation_map.
      rewrite <- Hperm at 2. rewrite <- Permutation_rev.
      unfold sql_limit. destruct (limit <? 0) eqn:E; [reflexivity|].
      apply Z.ltb_ge in E. destruct Hl as [Hl|Hl]; [lia|].
      unfold conversation_messages in Hl. rewrite length_map in Hl.
      rewrite take_ge; [reflexivity|]. rewrite (Permutation_length Hperm). lia.
    + intros Hnew Hl.
      rewrite (get_conversation_context_newest_first w chat_id cookie_id limit st' Hq Hnew).
      destruct (limit <? 0) eqn:E; [apply Z.ltb_lt in E; lia|].
      rewrite Hmsgs, last_n_app by (simpl; lia). eexists. reflexivity.
  - intros Hq Hq'. unfold get_bargain_count. rewrite Hq, Hq', Hrows, List.filter_app, length_app.
    cbn [List.filter]. subst user_turn assistant_turn.
    rewrite !in_conversation_own, assistant_turn_not_counted, user_turn_counted.
    cbn [andb]. destruct (bool_decide (tag = Some (py "price"))); simpl; lia.
Qed.

Lemma save_conversation_round_trip_witness :
  exists older,
    get_conversation_context (env_price None never_raises) (py "c1") (py "acc") 20
      (save_conversation (env_price None never_raises) (py "c1") (py "acc") (py "u1")
         (py "i1") (py "assistant") (py "ok") (Some (py "price"))
         (save_conversation (env_price None never_raises) (py "c1") (py "acc") (py "u1")
            (py "i1") (py "user") (py "cheaper?") (Some (py "price")) (price_history 1)))
    = older ++ [ {| msg_role := py "user"; msg_content := py "cheaper?" |};
                 {| msg_role := py "assistant"; msg_content := py "ok" |} ].
Proof.
  refine (proj2 (proj1 (proj2 (proj2
            (save_conversation_round_trip (env_price None never_raises)
               (py "c1") (py "acc") (py "u1") (py "i1") (py "cheaper?") (py "ok")
               (Some (py "price")) (price_history 1) eq_refl eq_refl))) 20 eq_refl) _ _).
  - reflexivity.
  - lia.
Defined.

(** ** The client cache, continued *)

(** X12. [clear_client_cache] with a non-empty account id forgets the client
    and the time of that account and of no other; with no id, or with the
    empty string (which Python takes as false), it forgets every client and
    every time.  Either way the agents, the table and the call record stay.
    After an account was cleared, [get_client] reads the settings again: it
    returns [None] for an account that is disabled or has no credential. *)
Theorem clear_client_cache_spec (w : Env) (cookie_id : str) (st : State) :
  (cookie_id <> [] ->
   let st' := clear_client_cache (Some cookie_id) st in
   clients st' !! cookie_id = None /\
   client_last_used st' !! cookie_id = None /\
   (forall c, c <> cookie_id ->
              clients st' !! c = clients st !! c /\
              client_last_used st' !! c = client_last_used st !! c) /\
   (ai_enabled (get_ai_reply_settings w cookie_id) = false \/
    api_key (get_ai_reply_settings w cookie_id) = [] ->
    get_client w cookie_id st' = (None, st'))) /\
  (clients (clear_client_cache None st) = ∅ /\
   client_last_used (clear_client_cache None st) = ∅ /\
   clear_client_cache (Some []) st = clear_client_cache None st) /\
  (forall target,
      let st' := clear_client_cache target st in
      agents st' = agents st /\
      ai_conversations st' = ai_conversations st /\
      backend_calls st' = backend_calls st /\
      (cache_consistent st -> cache_consistent st')).
Proof.
  split; [|split].
  - intros Hne st'. destruct cookie_id as [|c s]; [congruence|].
    subst st'. cbn [clear_client_cache clients client_last_used set_cache].
    split; [apply lookup_delete_eq|]. split; [apply lookup_delete_eq|]. split.
    + intros c' Hc'. rewrite !lookup_delete_ne by congruence. split; reflexivity.
    + intros Hoff. unfold get_client. cbn [clients set_cache].
      rewrite lookup_delete_eq.
      destruct Hoff as [H|H]; rewrite H; cbn [negb orb nonempty]; [reflexivity|].
      rewrite orb_true_r. reflexivity.
  - repeat split.
  - intros target st'. subst st'.
    destruct target as [[|c s]|]; cbn [clear_client_cache]; repeat split;
      intros Hk c' Hc'; cbn [clients client_last_used set_cache] in *;
      try (rewrite lookup_empty in Hc'; destruct Hc' as [? Hc']; discriminate Hc').
    destruct (decide (c' = c :: s)) as [->|Hne].
    + rewrite lookup_delete_eq in Hc'. destruct Hc' as [? Hc']. discriminate Hc'.
    + rewrite lookup_delete_ne in Hc' by congruence.
      rewrite lookup_delete_ne by congruence. apply Hk, Hc'.
Qed.

Lemma pop_clients_consistent (l : list str) (st : State) :
  cache_consistent st -> cache_consistent (fold_left pop_client l st).
Proof.
  intros Hk c Hc.
  destruct (pop_clients_lookup l st c) as [Hin Hout]. cbv zeta in Hin, Hout.
  destruct (decide (c ∈ l)) as [Hl|Hl].
  - destruct (Hin Hl) as (H1 & _). rewrite H1 in Hc. destruct Hc as [? Hc]. discriminate Hc.
  - destruct (Hout Hl) as (H1 & H2 & _). rewrite H2. apply Hk. rewrite <- H1. exact Hc.
Qed.

(** X13. Every cached client has a recorded time of last use: this holds for a
    fresh engine and is kept by [get_client], [detect_intent],
    [generate_reply], [clear_client_cache] and [cleanup_unused_clients]. *)
Theorem cache_consistent_invariant (w : Env) :
  cache_consistent init_state /\
  (forall st, cache_consistent st ->
     (forall cookie_id, cache_consistent (snd (get_client w cookie_id st))) /\
     (forall message cookie_id, cache_consistent (snd (detect_intent w message cookie_id st))) /\
     (forall message item_info chat_id cookie_id user_id item_id,
         cache_consistent
           (snd (generate_reply w message item_info chat_id cookie_id user_id item_id st))) /\
     (forall target, cache_consistent (clear_client_cache target st)) /\
     (forall max_idle_hours, cache_consistent (cleanup_unused_clients w max_idle_hours st))).
Proof.
  split.
  - intros c Hc. cbn [clients init_state] in Hc. rewrite lookup_empty in Hc.
    destruct Hc as [? Hc]. discriminate Hc.
  - intros st Hk. split; [|split; [|split; [|split]]].
    + intros cookie_id. destruct (get_client_step w cookie_id st) as (_ & _ & _ & H).
      exact (H Hk).
    + intros message cookie_id.
      destruct (detect_intent_step w message cookie_id st) as (_ & _ & _ & H). exact (H Hk).
    + intros message item_info chat_id cookie_id user_id item_id.
      destruct (generate_reply_step w message item_info chat_id cookie_id user_id item_id st)
        as (_ & _ & _ & H). exact (H Hk).
    + intros target. intros c Hc.
      destruct target as [[|x s]|]; cbn [clear_client_cache clients client_last_used set_cache]
        in *; try (rewrite lookup_empty in Hc; destruct Hc as [? Hc]; discriminate Hc).
      destruct (decide (c = x :: s)) as [->|Hne].
      * rewrite lookup_delete_eq in Hc. destruct Hc as [? Hc]. discriminate Hc.
      * rewrite lookup_delete_ne in Hc by congruence.
        rewrite lookup_delete_ne by congruence. apply Hk, Hc.
    + intros max_idle_hours. apply pop_clients_consistent, Hk.
Qed.

(** X14. After a sweep of a consistent cache no stale client is left: every
    client still cached has a time of last use [T] with
    [time_time w - T <= max_idle_hours * 3600], and that client and time are
    the ones it had before the sweep. *)
Theorem cleanup_unused_clients_leaves_fresh (w : Env) (max_idle_hours : Z) (st : State)
    (c : str) (client : Client) :
  cache_consistent st ->
  clients (cleanup_unused_clients w max_idle_hours st) !! c = Some client ->
  clients st !! c = Some client /\
  exists T,
    client_last_used st !! c = Some T /\
    client_last_used (cleanup_unused_clients w max_idle_hours st) !! c = Some T /\
    (time_time w - T <= inject_Z (max_idle_hours * 3600))%Q.
Proof.
  intros Hk Hc.
  destruct (pop_clients_lookup (expired_clients w max_idle_hours st) st c) as [Hin Hout].
  fold (cleanup_unused_clients w max_idle_hours st) in Hin, Hout. cbv zeta in Hin, Hout.
  destruct (decide (c ∈ expired_clients w max_idle_hours st)) as [Hl|Hl].
  - destruct (Hin Hl) as (H1 & _). congruence.
  - destruct (Hout Hl) as (H1 & H2 & _). rewrite H1 in Hc. split; [exact Hc|].
    destruct (Hk c) as [T HT]; [rewrite Hc; eauto|].
    exists T. split; [exact HT|]. split; [rewrite H2; exact HT|].
    destruct (Qlt_le_dec (inject_Z (max_idle_hours * 3600)) (time_time w - T)) as [Hlt|Hle];
      [|exact Hle].
    destruct Hl. apply elem_of_expired_clients. exists T. split; [exact HT|].
    apply is_expired_iff. exact Hlt.
Qed.

Lemma cleanup_unused_clients_leaves_fresh_witness :
  clients cached_at_1000 !! py "acc"
  = Some {| client_api_key := py "sk-demo";
            client_base_url := py "https://api.example.com/v1" |}.
Proof.
  refine (proj1 (cleanup_unused_clients_leaves_fresh (at_time 2800 env_disabled) 1
                   cached_at_1000 (py "acc") _ _ _)).
  - destruct (get_client_step (env_price None never_raises) (py "acc") init_state)
      as (_ & _ & _ & H).
    apply H. intros c Hc. cbn [clients init_state] in Hc. rewrite lookup_empty in Hc.
    destruct Hc as [? Hc]. discriminate Hc.
  - vm_compute. reflexivity.
Defined.

(** X15. [get_client] returns [None] exactly when no client is cached for the
    account and the account is disabled, has no credential, or the [OpenAI]
    constructor raises; a fetch that returns [None] leaves the state as it
    was. *)
Theorem get_client_none (w : Env) (cookie_id : str) (st : State) :
  let settings := get_ai_reply_settings w cookie_id in
  (fst (get_client w cookie_id st) = None <->
   clients st !! cookie_id = None /\
   (ai_enabled settings = false \/ api_key settings = [] \/
    exists e, OpenAI w (api_key settings) (base_url settings) = Raise e)) /\
  (fst (get_client w cookie_id st) = None -> snd (get_client w cookie_id st) = st).
Proof.
  intros settings. subst settings. unfold get_client.
  destruct (clients st !! cookie_id) as [client|] eqn:Hc; cbn [fst snd].
  - split; [|discriminate]. split; [discriminate | intros [? _]; discriminate].
  - destruct (ai_enabled (get_ai_reply_settings w cookie_id)) eqn:Hen; cbn [negb orb].
    2:{ cbn [fst snd]. split; [|reflexivity]. split; auto. }
    destruct (api_key (get_ai_reply_settings w cookie_id)) as [|k ks] eqn:Hkey;
      cbn [nonempty negb].
    { cbn [fst snd]. split; [|reflexivity]. split; auto. }
    destruct (OpenAI w (k :: ks) _) as [client|e] eqn:Hctor; cbn [fst snd].
    + split; [|discriminate]. split; [discriminate|].
      intros [_ [H|[H|[e H]]]]; discriminate.
    + split; [|reflexivity]. split; [|reflexivity]. intros _. split; [reflexivity|].
      right. right. exists e. reflexivity.
Qed.

(** ** The normaliser, continued *)

Lemma lstrip_segment (s : str) :
  exists ws, s = ws ++ lstrip s /\ forallb isspace ws = true.
Proof.
  induction s as [|c t (ws & Ht & Hws)]; [exists []; split; reflexivity|].
  simpl. destruct (isspace c) eqn:E.
  - exists (c :: ws). simpl. rewrite E, Hws. split; [f_equal; exact Ht | reflexivity].
  - exists []. split; reflexivity.
Qed.

Lemma lstrip_head (s t : str) (c : Z) : lstrip s = c :: t -> isspace c = false.
Proof.
  induction s as [|x s IH]; simpl; [discriminate|].
  destruct (isspace x) eqn:E; [exact IH|]. intros [= <- _]. exact E.
Qed.

Lemma lstrip_nonspace (c : Z) (t : str) : isspace c = false -> lstrip (c :: t) = c :: t.
Proof. intros H. simpl. rewrite H. reflexivity. Qed.

Lemma lstrip_idem (s : str) : lstrip (lstrip s) = lstrip s.
Proof.
  destruct (lstrip s) as [|c t] eqn:E; [reflexivity|].
  apply lstrip_nonspace. exact (lstrip_head _ _ _ E).
Qed.

Lemma rstrip_idem (s : str) : rstrip (rstrip s) = rstrip s.
Proof. unfold rstrip. rewrite rev_involutive, lstrip_idem. reflexivity. Qed.

Lemma rstrip_segment (s : str) :
  exists ws, s = rstrip s ++ ws /\ forallb isspace ws = true.
Proof.
  destruct (lstrip_segment (rev s)) as (ws & H & Hws).
  exists (rev ws). split.
  - unfold rstrip. rewrite <- rev_app_distr, <- H, rev_involutive. reflexivity.
  - rewrite forallb_forall in *. intros x Hx. apply Hws, in_rev. exact Hx.
Qed.

(** [s.strip()] is [s] without a run of whitespace at each end. *)
Lemma strip_segment (s : str) :
  exists ws1 ws2,
    s = ws1 ++ strip s ++ ws2 /\ forallb isspace ws1 = true /\ forallb isspace ws2 = true.
Proof.
  destruct (lstrip_segment s) as (ws1 & H1 & Hws1).
  destruct (rstrip_segment (lstrip s)) as (ws2 & H2 & Hws2).
  exists ws1, ws2. unfold strip. rewrite <- H2, <- H1. repeat split; assumption.
Qed.

Lemma rstrip_cons_nonspace (c : Z) (t : str) :
  isspace c = false -> rstrip (c :: t) = c :: rstrip t.
Proof. intros H. exact (rstrip_app_nonspace [] t c H). Qed.

Lemma strip_idem (s : str) : strip (strip s) = strip s.
Proof.
  unfold strip at 2 3. destruct (lstrip s) as [|c t] eqn:E; [reflexivity|].
  pose proof (lstrip_head _ _ _ E) as Hc.
  rewrite (rstrip_cons_nonspace c t Hc).
  unfold strip. rewrite (lstrip_nonspace c _ Hc).
  rewrite (rstrip_cons_nonspace c _ Hc), rstrip_idem. reflexivity.
Qed.

Lemma strip_sublist (s : str) : strip s `sublist_of` s.
Proof.
  destruct (strip_segment s) as (ws1 & ws2 & H & _). rewrite H at 2.
  apply sublist_inserts_l, sublist_inserts_r. reflexivity.
Qed.

Lemma think_blocks_removed_sublist (s o : str) :
  think_blocks_removed s o -> o `sublist_of` s.
Proof.
  induction 1 as [|body rest out Hmin H IH|c s out Hno H IH].
  - reflexivity.
  - rewrite !app_assoc. apply sublist_inserts_l. exact IH.
  - apply sublist_skip. exact IH.
Qed.

Lemma clean_thinking_content_sublist (text : str) :
  _clean_thinking_content text `sublist_of` text.
Proof.
  unfold _clean_thinking_content. destruct (nonempty text); [|apply sublist_nil_l].
  etransitivity; [apply strip_sublist|].
  apply think_blocks_removed_sublist, re_sub_think_removed.
Qed.

Lemma clean_thinking_content_stripped (text : str) :
  strip (_clean_thinking_content text) = _clean_thinking_content text.
Proof.
  unfold _clean_thinking_content. destruct (nonempty text); [apply strip_idem | reflexivity].
Qed.

Lemma extract_response_content_stripped (response : Response) :
  strip (_extract_response_content response) = _extract_response_content response.
Proof.
  destruct (choices response) as [|choice rest] eqn:Hch.
  - unfold _extract_response_content, extract_response_content_body. rewrite Hch. reflexivity.
  - destruct (content (message choice)) as [c|] eqn:Hc.
    + rewrite (extract_response_content_of_content _ _ _ _ Hch Hc).
      destruct (contains think_open c); apply strip_idem.
    + unfold _extract_response_content, extract_response_content_body. rewrite Hch, Hc.
      cbn [nonempty]. destruct (reasoning_content (message choice)) as [[|]|]; reflexivity.
Qed.

(** X16. The normaliser only removes text: [_clean_thinking_content] returns
    a subsequence of the text it is given, [_extract_response_content] a
    subsequence of the first candidate's content, never longer than it; and
    what they return is already trimmed, so stripping it again changes
    nothing. *)
Theorem normaliser_only_removes (response : Response) :
  (forall text,
      _clean_thinking_content text `sublist_of` text /\
      strip (_clean_thinking_content text) = _clean_thinking_content text) /\
  (forall choice rest c,
      choices response = choice :: rest ->
      content (message choice) = Some c ->
      _extract_response_content response `sublist_of` c /\
      (length (_extract_response_content response) <= length c)%nat) /\
  strip (_extract_response_content response) = _extract_response_content response.
Proof.
  split; [|split].
  - intros text. split; [apply clean_thinking_content_sublist
                        | apply clean_thinking_content_stripped].
  - intros choice rest c Hch Hc.
    assert (_extract_response_content response `sublist_of` c) as H.
    { rewrite (extract_response_content_of_content _ _ _ _ Hch Hc).
      destruct (contains think_open c); [|apply strip_sublist].
      etransitivity; [apply strip_sublist|].
      apply think_blocks_removed_sublist, re_sub_think_removed. }
    split; [exact H | apply sublist_length, H].
  - apply extract_response_content_stripped.
Qed.

Lemma contains_tail (p : str) (c : Z) (t : str) :
  contains p (c :: t) = false -> contains p t = false.
Proof. simpl. intros H. apply orb_false_iff in H as [_ H]. exact H. Qed.

Lemma no_open_kept (s : str) :
  contains think_open s = false -> think_blocks_removed s s.
Proof.
  induction s as [|c t IH]; intros H; [constructor|].
  apply tbr_keep.
  - intros body rest E. rewrite contains_false in H. apply (H [] (body ++ think_close ++ rest)).
    exact E.
  - apply IH. exact (contains_tail _ _ _ H).
Qed.

(** The first [</think>] after a body that holds none is the one right after
    the body: the end marker does not overlap itself. *)
Lemma first_close_after_body (body rest a r : str) :
  contains think_close body = false ->
  body ++ think_close ++ rest = a ++ think_close ++ r ->
  (length body <= length a)%nat.
Proof.
  revert a. induction body as [|b body IH]; intros a Hbody E; [simpl; lia|].
  destruct a as [|x a].
  - exfalso. rewrite contains_false in Hbody.
    rewrite think_close_eq in *. simpl in E.
    injection E as -> E.
    do 7 (destruct body as [|? body]; [simpl in E; simplify_eq|];
          simpl in E; injection E as -> E).
    apply (Hbody [] body). reflexivity.
  - simpl in E. injection E as -> E. simpl.
    specialize (IH a (contains_tail _ _ _ Hbody) E). lia.
Qed.

Lemma think_blocks_removed_after_plain (pre s out : str) :
  0x3C ∉ pre -> think_blocks_removed s out -> think_blocks_removed (pre ++ s) (pre ++ out).
Proof.
  intros Hpre H. induction pre as [|c pre IH]; [exact H|].
  apply not_elem_of_cons in Hpre as [Hc Hpre].
  simpl. apply tbr_keep; [|apply IH, Hpre].
  intros body rest E. rewrite think_open_eq in E. simpl in E. injection E as E _. congruence.
Qed.

(** X17. A completed block is removed and the text around it is kept: for a
    text [pre ++ "<think>" ++ body ++ "</think>" ++ answer] where [pre] holds
    no [<], [body] no [</think>] and [answer] no [<think>], the substitution
    gives [pre ++ answer], and the cleaned text and the reply extracted from
    such a content are [pre ++ answer] trimmed. *)
Theorem clean_thinking_content_block (pre body answer : str) (reasoning : option str)
    (rest : list Choice) :
  0x3C ∉ pre ->
  contains think_close body = false ->
  contains think_open answer = false ->
  let text := pre ++ think_open ++ body ++ think_close ++ answer in
  re_sub_think text = pre ++ answer /\
  _clean_thinking_content text = strip (pre ++ answer) /\
  _extract_response_content
    {| choices := {| message := {| content := Some text; reasoning_content := reasoning |} |}
                  :: rest |} = strip (pre ++ answer).
Proof.
  intros Hpre Hbody Hanswer text.
  assert (re_sub_think text = pre ++ answer) as Hsub.
  { apply re_sub_think_unique, think_blocks_removed_after_plain; [exact Hpre|].
    apply tbr_block; [|apply no_open_kept, Hanswer].
    intros a r E. exact (first_close_after_body _ _ _ _ Hbody E). }
  assert (nonempty text = true) as Hne.
  { apply nonempty_app_r. reflexivity. }
  assert (contains think_open text = true) as Hmark.
  { apply contains_spec. exists pre, (body ++ think_close ++ answer). reflexivity. }
  split; [exact Hsub|]. split.
  - unfold _clean_thinking_content. rewrite Hne, Hsub. reflexivity.
  - erewrite extract_response_content_of_content by reflexivity.
    rewrite Hmark, Hsub. reflexivity.
Qed.

Lemma clean_thinking_content_block_witness :
  _clean_thinking_content (py " <think>reasoning
here</think> final answer ") = py "final answer".
Proof.
  refine (proj1 (proj2 (clean_thinking_content_block (py " ") (py "reasoning
here") (py " final answer ") None [] _ eq_refl eq_refl))).
  vm_compute. intros H. apply elem_of_cons in H as [H|H]; [discriminate H | inversion H].
Defined.

(** ** Replies *)

Lemma call_dashscope_api_stripped (w : Env) (settings : Settings) (messages : list Message)
    (max_tokens : Z) (temperature : Q) (st : State) (t : str) :
  fst (_call_dashscope_api w settings messages max_tokens temperature st) = Ok t ->
  strip t = t.
Proof.
  unfold _call_dashscope_api.
  destruct (contains _ (base_url settings)); [|discriminate].
  cbv zeta. unfold bind, modify, lift, ret, raise.
  match goal with |- context [DashCall ?r] => generalize r end.
  intros request.
  destruct (requests_post w request) as [response|e]; [|discriminate].
  destruct (negb _); [discriminate|].
  destruct (body response); try discriminate.
  cbn [fst]. intros [= <-]. apply strip_idem.
Qed.

Lemma call_openai_api_stripped (w : Env) (client : Client) (settings : Settings)
    (messages : list Message) (max_tokens : Z) (temperature : Q) (st : State) (t : str) :
  fst (_call_openai_api w client settings messages max_tokens temperature st) = Ok t ->
  strip t = t.
Proof.
  unfold _call_openai_api. cbv zeta. unfold bind, modify, lift, ret.
  match goal with |- context [ChatCall client ?r] => generalize r end.
  intros request.
  destruct (chat_completions_create w client request) as [resp|e]; [|discriminate].
  cbn [fst]. intros [= <-]. apply extract_response_content_stripped.
Qed.

Lemma generate_reply_call_stripped (w : Env) (settings : Settings) (cookie_id : str)
    (messages : list Message) (st : State) (reply : str) :
  fst (generate_reply_call w settings cookie_id messages st) = Ok (Some reply) ->
  strip reply = reply.
Proof.
  unfold generate_reply_call.
  destruct (_is_dashscope_api w _).
  - unfold bind, ret.
    match goal with |- context [_call_dashscope_api ?a ?b ?c ?d ?e ?f] =>
      pose proof (call_dashscope_api_stripped a b c d e f) as H;
      destruct (_call_dashscope_api a b c d e f) as [[t|x] st'] end;
      cbn [fst] in *; [|discriminate].
    intros [= <-]. apply H. reflexivity.
  - unfold bind at 1. unfold total.
    destruct (get_client w cookie_id st) as [[client|] st1]; [|discriminate].
    unfold bind, ret.
    match goal with |- context [_call_openai_api ?a ?b ?c ?d ?e ?f ?g] =>
      pose proof (call_openai_api_stripped a b c d e f g) as H;
      destruct (_call_openai_api a b c d e f g) as [[t|x] st'] end;
      cbn [fst] in *; [|discriminate].
    intros [= <-]. apply H. reflexivity.
Qed.

Lemma stripped_ends (s : str) :
  strip s = s -> s <> [] ->
  (exists c t, s = c :: t /\ isspace c = false) /\
  (exists t c, s = t ++ [c] /\ isspace c = false).
Proof.
  intros Hs Hne. split.
  - unfold strip in Hs. destruct (lstrip s) as [|c t] eqn:E.
    + destruct Hne. rewrite <- Hs. reflexivity.
    + pose proof (lstrip_head _ _ _ E) as Hc.
      rewrite (rstrip_cons_nonspace c t Hc) in Hs. exists c, (rstrip t). split; [|exact Hc].
      symmetry. exact Hs.
  - unfold strip, rstrip in Hs. destruct (lstrip (rev (lstrip s))) as [|d u] eqn:E.
    + destruct Hne. rewrite <- Hs. reflexivity.
    + exists (rev u), d. split; [|exact (lstrip_head _ _ _ E)].
      rewrite <- Hs. reflexivity.
Qed.

(** X18. Every reply [generate_reply] returns is trimmed: stripping it changes
    nothing, it is not empty, and it neither starts nor ends with
    whitespace. *)
Theorem generate_reply_trimmed (w : Env) (message : str) (item_info : ItemInfo)
    (chat_id cookie_id user_id item_id : str) (st : State) (reply : str) :
  fst (generate_reply w message item_info chat_id cookie_id user_id item_id st) = Some reply ->
  strip reply = reply /\
  (exists c t, reply = c :: t /\ isspace c = false) /\
  (exists t c, reply = t ++ [c] /\ isspace c = false).
Proof.
  intros Hrun.
  assert (strip reply = reply /\ reply <> []) as [Hs Hne].
  { destruct (is_ai_enabled w cookie_id) eqn:Hen;
      [|unfold generate_reply in Hrun; rewrite Hen in Hrun; discriminate].
    destruct (detect_intent w message cookie_id st) as [intent st1] eqn:Hint.
    rewrite (generate_reply_after_intent w message item_info chat_id cookie_id user_id item_id
               st st1 intent Hen Hint) in Hrun.
    destruct (bargain_limit_reached intent _ _).
    - unfold refuse_bargain, try_except, bind, modify, ret in Hrun. cbn [fst] in Hrun.
      injection Hrun as <-. split; [vm_compute; reflexivity | discriminate].
    - unfold generate_and_save, try_except, bind at 1, lift in Hrun.
      destruct (load_custom_prompts w _) as [prompts|e]; [|discriminate].
      unfold bind at 1 in Hrun.
      match type of Hrun with context [generate_reply_call ?a ?b ?c ?d ?e] =>
        pose proof (generate_reply_call_stripped a b c d e) as Hcall;
        destruct (generate_reply_call a b c d e) as [[[r|]|x] st2] end;
        cbn [fst] in *; try discriminate.
      destruct (nonempty r) eqn:Hr; cbn [negb] in Hrun; [|discriminate].
      unfold bind, modify, ret in Hrun.
      destruct (is_price intent); cbn [fst] in Hrun; injection Hrun as <-;
        (split; [apply Hcall; reflexivity | intros ->; discriminate]). }
  split; [exact Hs | exact (stripped_ends reply Hs Hne)].
Qed.

Lemma generate_reply_trimmed_witness :
  fst (generate_reply (env_price (Some 3) never_raises) (py "cheaper?") demo_item
         (py "c1") (py "acc") (py "u1") (py "i1") (price_history 2)) = Some (py "ok") /\
  strip (py "ok") = py "ok".
Proof.
  assert (fst (generate_reply (env_price (Some 3) never_raises) (py "cheaper?") demo_item
                 (py "c1") (py "acc") (py "u1") (py "i1") (price_history 2))
          = Some (py "ok")) as Hrun by (vm_compute; reflexivity).
  split; [exact Hrun|].
  exact (proj1 (generate_reply_trimmed (env_price (Some 3) never_raises) (py "cheaper?")
                  demo_item (py "c1") (py "acc") (py "u1") (py "i1") (price_history 2)
                  (py "ok") Hrun)).
Defined.

(** ** The prompt sent to DashScope *)

Lemma occurs_in_here (m rest : str) : occurs_in m (m ++ rest).
Proof. exists [], rest. reflexivity. Qed.

Lemma occurs_in_refl (m : str) : occurs_in m m.
Proof. exists [], []. rewrite app_nil_r. reflexivity. Qed.

Lemma occurs_in_app_r (m x y : str) : occurs_in m y -> occurs_in m (x ++ y).
Proof. intros (a & b & ->). exists (x ++ a), b. rewrite <- app_assoc. reflexivity. Qed.

Lemma occurs_in_app_l (m x y : str) : occurs_in m x -> occurs_in m (x ++ y).
Proof. intros (a & b & ->). exists a, (b ++ y). rewrite <- !app_assoc. reflexivity. Qed.

Lemma occurs_in_trans (m x y : str) : occurs_in m x -> occurs_in x y -> occurs_in m y.
Proof.
  intros (a & b & ->) (a' & b' & ->). exists (a' ++ a), (b ++ b').
  rewrite <- !app_assoc. reflexivity.
Qed.

Lemma occurs_in_nil (x : str) : occurs_in [] x.
Proof. exists [], x. reflexivity. Qed.

Lemma dashscope_prompt_fold (msgs : list Message) (acc : str * str) (s u : str) :
  fold_left
    (fun acc msg =>
       if bool_decide (msg_role msg = py "system") then (msg_content msg, snd acc)
       else if bool_decide (msg_role msg = py "user") then (fst acc, msg_content msg)
       else acc)
    (msgs ++ [system_message s; user_message u]) acc = (s, u).
Proof.
  rewrite fold_left_app. cbn [fold_left system_message user_message msg_role msg_content].
  rewrite (bool_decide_eq_true_2 (py "system" = py "system")) by reflexivity.
  replace (bool_decide (py "user" = py "system")) with false by (vm_compute; reflexivity).
  rewrite (bool_decide_eq_true_2 (py "user" = py "user")) by reflexivity.
  reflexivity.
Qed.

Lemma dashscope_prompt_last_two (msgs : list Message) (s u : str) :
  dashscope_prompt (msgs ++ [system_message s; user_message u]) =
  if nonempty s && nonempty u then
    s ++ nl ++ nl ++ py "用户问题：" ++ u ++ nl ++ nl ++ py "请直接回答用户的问题："
  else if nonempty u then u
  else join nl (List.map render_message (msgs ++ [system_message s; user_message u])).
Proof.
  unfold dashscope_prompt. rewrite dashscope_prompt_fold. reflexivity.
Qed.

Lemma user_prompt_has_message (settings : Settings) (item_info : ItemInfo)
    (context : list Message) (bargain_count : Z) (message : str) :
  occurs_in message (user_prompt settings item_info context bargain_count message).
Proof.
  unfold user_prompt. cbv zeta.
  repeat first [apply occurs_in_here | apply occurs_in_app_r].
Qed.

Lemma dashscope_prompt_two (s u : str) :
  dashscope_prompt [system_message s; user_message u] =
  if nonempty s && nonempty u then
    s ++ nl ++ nl ++ py "用户问题：" ++ u ++ nl ++ nl ++ py "请直接回答用户的问题："
  else if nonempty u then u
  else join nl (List.map render_message [system_message s; user_message u]).
Proof. exact (dashscope_prompt_last_two [] s u). Qed.

Lemma dashscope_prompt_two_keeps (s u : str) :
  occurs_in s (dashscope_prompt [system_message s; user_message u]) /\
  occurs_in u (dashscope_prompt [system_message s; user_message u]).
Proof.
  rewrite (dashscope_prompt_two s u).
  destruct s as [|a s]; destruct u as [|b u]; cbn [nonempty andb].
  - split; apply occurs_in_nil.
  - split; [apply occurs_in_nil | apply occurs_in_refl].
  - split; [|apply occurs_in_nil].
    cbn [app List.map join render_message system_message user_message msg_role msg_content].
    apply occurs_in_app_l. do 2 apply occurs_in_app_r. apply occurs_in_refl.
  - split; [apply occurs_in_here|].
    do 4 apply occurs_in_app_r. apply occurs_in_here.
Qed.

(** X19. Merging the messages for DashScope loses nothing of what the engine
    sends: for a system message followed by a user message, the prompt holds
    the content of both (under every combination of empty and non-empty
    contents), so the buyer's message is part of the classification prompt
    and of the generation prompt.  It does lose history: when the last user
    message is not empty, every message before the last system and user
    message is ignored. *)
Theorem dashscope_prompt_keeps_messages :
  (forall s u,
      occurs_in s (dashscope_prompt [system_message s; user_message u]) /\
      occurs_in u (dashscope_prompt [system_message s; user_message u])) /\
  (forall prompts message,
      occurs_in message (dashscope_prompt (classify_messages prompts message))) /\
  (forall settings prompts intent item_info context bargain_count message,
      occurs_in message
        (dashscope_prompt
           (generate_reply_messages settings prompts intent item_info context bargain_count
              message))) /\
  (forall msgs s u,
      u <> [] ->
      dashscope_prompt (msgs ++ [system_message s; user_message u])
      = dashscope_prompt [system_message s; user_message u]).
Proof.
  split; [exact dashscope_prompt_two_keeps|]. split; [|split].
  - intros prompts message.
    exact (proj2 (dashscope_prompt_two_keeps _ message)).
  - intros settings prompts intent item_info context bargain_count message.
    eapply occurs_in_trans; [apply user_prompt_has_message|].
    exact (proj2 (dashscope_prompt_two_keeps _ _)).
  - intros msgs s u Hu.
    rewrite (dashscope_prompt_last_two msgs s u), (dashscope_prompt_two s u).
    destruct u; [congruence|]. cbn [nonempty]. destruct (nonempty s); reflexivity.
Qed.

(** ** One chat completion *)

(** X20. [_call_openai_api] makes exactly one chat completion call, for the
    configured model with the messages, token cap and temperature it was
    given.  When the call returns, the result is the normalised text of the
    response, the empty string included (an empty or reasoning-only
    response is not an error here); when the call raises, the same
    exception is raised again. *)
Theorem call_openai_api_outcome (w : Env) (client : Client) (settings : Settings)
    (messages : list Message) (max_tokens : Z) (temperature : Q) (st : State) :
  exists request,
    cr_model request = model_name settings /\
    cr_messages request = messages /\
    cr_max_tokens request = max_tokens /\
    cr_temperature request = temperature /\
    snd (_call_openai_api w client settings messages max_tokens temperature st)
    = log_call st (ChatCall client request) /\
    fst (_call_openai_api w client settings messages max_tokens temperature st)
    = match chat_completions_create w client request with
      | Ok resp => Ok (_extract_response_content resp)
      | Raise e => Raise e
      end.
Proof.
  unfold _call_openai_api. cbv zeta. unfold bind, modify, lift, ret.
  match goal with |- context [ChatCall client ?r] => set (request := r) end.
  assert (cr_model request = model_name settings /\
          cr_messages request = messages /\
          cr_max_tokens request = max_tokens /\
          cr_temperature request = temperature) as (H1 & H2 & H3 & H4)
    by (split; [reflexivity|split; [reflexivity|split; reflexivity]]).
  clearbody request. exists request.
  do 4 (split; [assumption|]).
  destruct (chat_completions_create w client request); split; reflexivity.
Qed.

(** ** The reply pipeline, continued *)

(** X21. The path on which a reply is generated: when the account is enabled,
    the cap check does not refuse, the prompts load and the generation call
    returns a non-empty [reply], [generate_reply] returns that reply; when
    neither insert raises, the table grows by exactly the user turn and the
    assistant turn, in this order, both tagged with the detected intent. *)
Theorem generate_reply_success (w : Env) (message : str) (item_info : ItemInfo)
    (chat_id cookie_id user_id item_id : str) (st st1 st2 : State) (intent : Intent)
    (prompts : gmap str str) (reply : str) :
  let settings := get_ai_reply_settings w cookie_id in
  let context := get_conversation_context w chat_id cookie_id 20 st1 in
  let bargain_count := get_bargain_count w chat_id cookie_id st1 in
  let tag := Some (intent_name intent) in
  let user_turn :=
    conversation_row chat_id cookie_id user_id item_id (py "user") message tag in
  let assistant_turn :=
    conversation_row chat_id cookie_id user_id item_id (py "assistant") reply tag in
  is_ai_enabled w cookie_id = true ->
  detect_intent w message cookie_id st = (intent, st1) ->
  bargain_limit_reached intent bargain_count (default 3 (max_bargain_rounds settings)) = false ->
  load_custom_prompts w settings = Ok prompts ->
  generate_reply_call w settings cookie_id
    (generate_reply_messages settings prompts intent item_info context bargain_count message)
    st1 = (Ok (Some reply), st2) ->
  reply <> [] ->
  fst (generate_reply w message item_info chat_id cookie_id user_id item_id st) = Some reply /\
  (db_raises w (InsertTurn user_turn) (ai_conversations st) = false ->
   db_raises w (InsertTurn assistant_turn) (ai_conversations st ++ [user_turn]) = false ->
   ai_conversations
     (snd (generate_reply w message item_info chat_id cookie_id user_id item_id st))
   = ai_conversations st ++ [user_turn; assistant_turn]).
Proof.
  intros settings context bargain_count tag user_turn assistant_turn
         Hen Hint Hcap Hprompts Hcall Hreply.
  subst tag.
  assert (ai_conversations st2 = ai_conversations st) as Hrows.
  { pose proof (generate_reply_call_frame w settings cookie_id
                  (generate_reply_messages settings prompts intent item_info context
                     bargain_count message) st1) as H1.
    rewrite Hcall in H1. cbn [snd] in H1.
    pose proof (detect_intent_frame w message cookie_id st) as H2.
    rewrite Hint in H2. cbn [snd] in H2. congruence. }
  assert (generate_reply w message item_info chat_id cookie_id user_id item_id st
          = (Some reply,
             save_conversation w chat_id cookie_id user_id item_id (py "assistant") reply
               (Some (intent_name intent))
               (save_conversation w chat_id cookie_id user_id item_id (py "user") message
                  (Some (intent_name intent)) st2))) as Hrun.
  { rewrite (generate_reply_after_intent w message item_info chat_id cookie_id user_id item_id
               st st1 intent Hen Hint).
    fold settings context bargain_count. rewrite Hcap.
    unfold generate_and_save, try_except, bind at 1, lift. rewrite Hprompts.
    unfold bind at 1. rewrite Hcall.
    destruct reply as [|c reply]; [congruence|]. cbn [nonempty negb].
    unfold bind, modify, ret.
    destruct (is_price intent); reflexivity. }
  rewrite Hrun. cbn [fst snd]. split; [reflexivity|]. intros E1 E2.
  rewrite !save_conversation_rows. cbv zeta. fold user_turn assistant_turn.
  rewrite Hrows, E1, E2, <- app_assoc. reflexivity.
Qed.

Lemma generate_reply_success_witness :
  fst (generate_reply (env_price (Some 3) never_raises) (py "cheaper?") demo_item
         (py "c1") (py "acc") (py "u1") (py "i1") (price_history 2)) = Some (py "ok").
Proof.
  edestruct (generate_reply_success (env_price (Some 3) never_raises) (py "cheaper?") demo_item
               (py "c1") (py "acc") (py "u1") (py "i1") (price_history 2)) as [H _].
  - reflexivity.
  - vm_compute. reflexivity.
  - vm_compute. reflexivity.
  - vm_compute. reflexivity.
  - vm_compute. reflexivity.
  - vm_compute. discriminate.
  - exact H.
Defined.

(** X22. Custom prompts are selected by intent name: an override stored under
    the name of one intent becomes the system prompt of a generation for that
    intent, and changes neither the system prompt used for another intent nor
    the classification prompt; the user prompt does not depend on the
    overrides at all. *)
Theorem custom_prompt_selection (settings : Settings) (prompts : gmap str str)
    (i j : Intent) (p : str) (item_info : ItemInfo) (context : list Message)
    (bargain_count : Z) (message : str) :
  generate_reply_messages settings (<[intent_name i := p]> prompts) i item_info context
    bargain_count message
  = [ system_message p;
      user_message (user_prompt settings item_info context bargain_count message) ] /\
  (i <> j ->
   generate_reply_messages settings (<[intent_name i := p]> prompts) j item_info context
     bargain_count message
   = generate_reply_messages settings prompts j item_info context bargain_count message) /\
  classify_messages (<[intent_name i := p]> prompts) message
  = classify_messages prompts message /\
  generate_reply_messages settings ∅ j item_info context bargain_count message
  = [ system_message (default_prompts j);
      user_message (user_prompt settings item_info context bargain_count message) ] /\
  classify_messages ∅ message
  = [ system_message default_prompt_classify; user_message message ].
Proof.
  assert (forall a b, a <> b -> intent_name a <> intent_name b) as Hinj.
  { intros a b Hab E. destruct a, b; try congruence; vm_compute in E; discriminate E. }
  assert (intent_name i <> py "classify") as Hcl.
  { intros E. destruct i; vm_compute in E; discriminate E. }
  unfold generate_reply_messages, classify_messages. cbv zeta.
  split; [|split; [|split; [|split]]].
  - rewrite lookup_insert_eq. reflexivity.
  - intros Hij. rewrite lookup_insert_ne by (apply Hinj; exact Hij). reflexivity.
  - rewrite lookup_insert_ne by exact Hcl. reflexivity.
  - rewrite lookup_empty. reflexivity.
  - rewrite lookup_empty. reflexivity.
Qed.

(** X23. A client that [get_client] has just returned survives a sweep run at
    the same time with a threshold that is not negative. *)
Theorem fresh_client_survives_sweep (w : Env) (cookie_id : str) (st : State)
    (max_idle_hours : Z) (client : Client) :
  0 <= max_idle_hours ->
  fst (get_client w cookie_id st) = Some client ->
  clients (cleanup_unused_clients w max_idle_hours (snd (get_client w cookie_id st)))
    !! cookie_id = Some client.
Proof.
  intros Hd Hget.
  assert (clients (snd (get_client w cookie_id st)) !! cookie_id = Some client /\
          client_last_used (snd (get_client w cookie_id st)) !! cookie_id
          = Some (time_time w)) as [Hc HT].
  { revert Hget. unfold get_client.
    destruct (clients st !! cookie_id) as [cached|] eqn:Hc.
    - cbn [fst snd clients client_last_used set_cache]. intros [= <-].
      split; [exact Hc | apply lookup_insert_eq].
    - destruct (negb _ || negb _); [discriminate|].
      destruct (OpenAI w _ _) as [created|e]; [|discriminate].
      cbn [fst snd clients client_last_used set_cache]. intros [= <-].
      split; apply lookup_insert_eq. }
  destruct (pop_clients_lookup
              (expired_clients w max_idle_hours (snd (get_client w cookie_id st)))
              (snd (get_client w cookie_id st)) cookie_id) as [_ Hout].
  cbv zeta in Hout.
  destruct Hout as (H1 & _); [|unfold cleanup_unused_clients; rewrite H1; exact Hc].
  rewrite elem_of_expired_clients. intros (T & HT' & Hexp).
  rewrite HT in HT'. injection HT' as <-.
  apply is_expired_iff in Hexp.
  assert (0 <= inject_Z (max_idle_hours * 3600))%Q as Hpos.
  { change 0%Q with (inject_Z 0). rewrite <- Zle_Qle. lia. }
  lra.
Qed.

Lemma fresh_client_survives_sweep_witness :
  clients (cleanup_unused_clients (env_price None never_raises) 0 cached_at_1000) !! py "acc"
  = Some {| client_api_key := py "sk-demo";
            client_base_url := py "https://api.example.com/v1" |}.
Proof.
  refine (fresh_client_survives_sweep (env_price None never_raises) (py "acc") init_state 0
            _ _ _).
  - lia.
  - vm_compute. reflexivity.
Defined.
